(** * PyTech: the order blotter ([pytech/trading/blotter.py])

    A shallow embedding of the [Blotter] class and of the part of the Python
    object model its methods rely on: dynamically typed values, insertion
    ordered dictionaries, mutable [Order] objects held by reference, and
    exceptions that leave earlier mutations in place. *)

From Stdlib Require Import ZArith QArith String List Bool Lia Lqa.
From stdpp Require Import base option list strings gmap.

Set Implicit Arguments.
Unset Strict Implicit.
Set Default Proof Using "Type".

Local Open Scope string_scope.

(** ** Enumerations of [pytech.utils.enums] and exceptions *)

Definition datetime := Z.

(** [TradeAction] and [AssetPosition], with the members the blotter names. *)
Inductive TradeAction := BUY | SELL.
Inductive AssetPosition := LONG | SHORT.

(** Modelled from the spec: the members of [OrderType] and [OrderSubType],
    which the blotter only passes on, are missing from the sources. *)
Inductive OrderType := MARKET | STOP | LIMIT | STOP_LIMIT.
Inductive OrderSubType := DAY | GOOD_TIL_CANCELED.

(** The exceptions a [Blotter] method can end with. The two configuration
    errors carry the class name of the offending argument, as
    [NotAFinderError(finder=type(asset_finder))] does. *)
Inductive exn :=
| KeyError
| AttributeError
| TypeError
| ValueError
| NotAFinderError (finder : string)
| NotAPortfolioError (portfolio : string)
| InvalidOrderError
| InvalidQuantityError.

Inductive outcome (A : Type) :=
| Returns (a : A)
| Raises (e : exn).
Arguments Returns {A} a.
Arguments Raises {A} e.

(** ** Python values *)

Module Asset.
(** Modelled from the spec: [pytech.fin.asset.Asset] is not part of the
    sources at hand. An instance is an object (told apart by its identity)
    that carries the ticker of the instrument. It inherits [object]'s
    equality and hash, so it never compares equal to a string. *)
Record t := mk { id : nat; ticker : string }.
End Asset.

(** The values that reach the blotter as keys and as entries of its table:
    [None], strings, tuples, [Asset] instances and references to [Order]
    objects. *)
#[warnings="-register-all"]
Inductive pyval :=
| PNone
| PStr (s : string)
| PTuple (items : list pyval)
| PAsset (a : Asset.t)
| POrder (ref : nat).

(** [x == y] as a dictionary uses it on keys: strings and tuples by content,
    objects by identity. *)
Fixpoint py_eqb (x y : pyval) : bool :=
  match x, y with
  | PNone, PNone => true
  | PStr s, PStr s' => String.eqb s s'
  | PTuple xs, PTuple ys =>
      (fix all2 (xs ys : list pyval) : bool :=
         match xs, ys with
         | [], [] => true
         | a :: xs', b :: ys' => py_eqb a b && all2 xs' ys'
         | _, _ => false
         end) xs ys
  | PAsset a, PAsset b => Nat.eqb (Asset.id a) (Asset.id b)
  | POrder r, POrder r' => Nat.eqb r r'
  | _, _ => false
  end.

(** The characters of a string, each as a one-character string: what
    iterating over a [str] yields. *)
Fixpoint chars (s : string) : list pyval :=
  match s with
  | EmptyString => []
  | String c s' => PStr (String c EmptyString) :: chars s'
  end.

(** [iter(v)]: the elements a [for] loop or an unpacking sees. *)
Definition py_iter (v : pyval) : outcome (list pyval) :=
  match v with
  | PStr s => Returns (chars s)
  | PTuple items => Returns items
  | _ => Raises TypeError
  end.

(** [a, b = v] *)
Definition unpack2 (v : pyval) : outcome (pyval * pyval) :=
  match py_iter v with
  | Raises e => Raises e
  | Returns [a; b] => Returns (a, b)
  | Returns _ => Raises ValueError
  end.

(** [x + y] on the values above (the blotter uses it on tuples). *)
Definition py_add (x y : pyval) : outcome pyval :=
  match x, y with
  | PTuple xs, PTuple ys => Returns (PTuple (xs ++ ys))
  | PStr s, PStr s' => Returns (PStr (s ++ s'))
  | _, _ => Raises TypeError
  end.

(** ** Dictionaries: insertion ordered, one entry per key *)

Definition dict := list (pyval * pyval).

Fixpoint dict_get (d : dict) (k : pyval) : option pyval :=
  match d with
  | [] => None
  | (k', v) :: d' => if py_eqb k' k then Some v else dict_get d' k
  end.

Definition dict_contains (d : dict) (k : pyval) : bool :=
  match dict_get d k with Some _ => true | None => false end.

(** [d[k] = v]: an existing key keeps its place, a new one goes last. *)
Fixpoint dict_set (d : dict) (k v : pyval) : dict :=
  match d with
  | [] => [(k, v)]
  | (k', v') :: d' =>
      if py_eqb k' k then (k', v) :: d' else (k', v') :: dict_set d' k v
  end.

(** [del d[k]]; [None] stands for the [KeyError] of a missing key. *)
Fixpoint dict_del (d : dict) (k : pyval) : option dict :=
  match d with
  | [] => None
  | (k', v') :: d' =>
      if py_eqb k' k then Some d'
      else match dict_del d' k with
           | Some d'' => Some ((k', v') :: d'')
           | None => None
           end
  end.

Definition dict_keys (d : dict) : list pyval := map fst d.
Definition dict_values (d : dict) : list pyval := map snd d.

(** ** The classes the blotter works with

    [Order], [Trade], [OwnedAsset], [Portfolio], [AssetFinder] and the
    commission models live in modules that are not among the sources at
    hand. Their data is modelled from the specification's data model; their
    methods are the fields of [Collaborators] below, so that every statement
    about the blotter holds whatever these methods compute. *)

Module Order.
(** Modelled from the spec: the fields of [pytech.trading.order.Order]
    the blotter reads and writes. *)
Record t := mk {
  asset : pyval;
  action : TradeAction;
  order_type : OrderType;
  order_subtype : option OrderSubType;
  stop : option Q;
  limit : option Q;
  qty : Z;
  filled : Z;
  created : option datetime;
  commission : Q;
  open : bool
}.

(** Modelled from the spec: [open_amount = requested - filled]. *)
Definition open_amount (o : t) : Z := (qty o - filled o)%Z.

Definition set_commission (c : Q) (o : t) : t :=
  mk (asset o) (action o) (order_type o) (order_subtype o) (stop o)
     (limit o) (qty o) (filled o) (created o) c (open o).

Definition set_filled (f : Z) (o : t) : t :=
  mk (asset o) (action o) (order_type o) (order_subtype o) (stop o)
     (limit o) (qty o) f (created o) (commission o) (open o).
End Order.

Module Trade.
(** Modelled from the spec: the record [Trade.from_order] builds. [order]
    is the reference to the originating [Order] object. *)
Record t := mk {
  asset : pyval;
  action : TradeAction;
  qty : Z;
  price_per_share : Q;
  commission : Q;
  trade_date : option datetime;
  order : nat;
  strategy : string
}.
End Trade.

Module OwnedAsset.
(** Modelled from the spec: the four keyword arguments the blotter passes
    to [OwnedAsset(...)] are the fields of the position. *)
Record t := mk {
  ticker : pyval;
  shares_owned : Z;
  average_share_price : Q;
  position : AssetPosition
}.
End OwnedAsset.

Module Portfolio.
(** Modelled from the spec: a cash balance and the holdings, one
    [OwnedAsset] per ticker. *)
Record t := mk {
  cash : Q;
  owned_assets : gmap string OwnedAsset.t
}.

Definition set_cash (c : Q) (p : t) : t := mk c (owned_assets p).
Definition set_owned_assets (m : gmap string OwnedAsset.t) (p : t) : t :=
  mk (cash p) m.
End Portfolio.

(** Modelled from the spec: [pytech.db.finders.AssetFinder] is missing from
    the sources. An instance is known by its identity only. *)
Variant AssetFinder := AssetFinder_instance (id : nat).

(** Modelled from the spec: the commission models are missing from the
    sources. A model is an object with a [calculate(order, price)] method. *)
Record CommissionModel := { calculate : Order.t -> Q -> Q }.

Class Collaborators := {
  (** [AssetFinder()] and [Portfolio()], the defaults of [__init__] *)
  AssetFinder_new : AssetFinder;
  Portfolio_new : Portfolio.t;
  (** the default commission model *)
  PerOrderCommissionModel : CommissionModel;
  (** [Order(asset=, action=, order_type=, order_subtype=, stop=, limit=,
      qty=, created=)] *)
  Order_new : pyval -> TradeAction -> OrderType -> option OrderSubType ->
              option Q -> option Q -> Z -> option datetime -> outcome Order.t;
  (** [order.check_triggers(dt=, current_price=)]: the answer and the order
      as the call leaves it *)
  check_triggers : Order.t -> option datetime -> Q -> bool * Order.t;
  (** [order.get_available_volume(dt=)] *)
  get_available_volume : Order.t -> option datetime -> Z;
  (** [portfolio.check_liquidity(commission, price_per_share, qty)] *)
  check_liquidity : Portfolio.t -> Q -> Q -> Z -> bool;
  (** [portfolio[key] = owned_asset] *)
  Portfolio_setitem : Portfolio.t -> pyval -> OwnedAsset.t -> Portfolio.t;
  (** [Trade.from_order(order, trade_date, execution_price, commission,
      strategy)]; the commission is [None] where the call leaves it out *)
  Trade_from_order : nat -> Order.t -> option datetime -> Q -> option Q ->
                     string -> outcome Trade.t;
  (** [trade.trade_value()] *)
  trade_value : Trade.t -> Q;
  (** [owned_asset.make_trade(qty=, price_per_share=)] *)
  OwnedAsset_make_trade : OwnedAsset.t -> Z -> Q -> OwnedAsset.t;
  (** [owned_asset.asset] *)
  OwnedAsset_asset : OwnedAsset.t -> Asset.t;
  (** [owned_asset.total_position_cost], [owned_asset.total_position_value] *)
  total_position_cost : OwnedAsset.t -> Q;
  total_position_value : OwnedAsset.t -> Q;
  (** [str(position)], as ['{}'.format(position)] renders it *)
  format_position : AssetPosition -> string
}.

(** ** The blotter and the world it runs in *)

Module Blotter.
(** The attributes [__init__] sets; [orders] is the dictionary from ticker
    to what was stored for it, [trades] the record of past trades. *)
Record t := mk {
  asset_finder : AssetFinder;
  portfolio : Portfolio.t;
  orders : dict;
  trades : list Trade.t;
  current_dt : option datetime;
  commission_model : CommissionModel
}.

Definition set_portfolio (p : Portfolio.t) (b : t) : t :=
  mk (asset_finder b) p (orders b) (trades b) (current_dt b)
     (commission_model b).
Definition set_orders (d : dict) (b : t) : t :=
  mk (asset_finder b) (portfolio b) d (trades b) (current_dt b)
     (commission_model b).
Definition set_trades (l : list Trade.t) (b : t) : t :=
  mk (asset_finder b) (portfolio b) (orders b) l (current_dt b)
     (commission_model b).
End Blotter.

(** The blotter [self], the [Order] objects that exist (an order is known by
    its index here, so that the table, a caller and [make_trade] all see the
    same object), and the warnings sent to the blotter's logger. *)
Record World := mkWorld {
  self : Blotter.t;
  objects : list Order.t;
  warnings : list string
}.

Definition set_self (b : Blotter.t) (w : World) : World :=
  mkWorld b (objects w) (warnings w).
Definition set_objects (os : list Order.t) (w : World) : World :=
  mkWorld (self w) os (warnings w).
Definition set_warnings (l : list string) (w : World) : World :=
  mkWorld (self w) (objects w) l.

(** ** Statements with effects

    A statement maps the world to its outcome and the world it leaves. When
    it raises, the effects it had before stay. *)

Definition M (A : Type) : Type := World -> outcome A * World.

Definition ret {A} (a : A) : M A := fun w => (Returns a, w).
Definition raise {A} (e : exn) : M A := fun w => (Raises e, w).
Definition lift {A} (o : outcome A) : M A := fun w => (o, w).

Definition bind {A B} (m : M A) (k : A -> M B) : M B :=
  fun w =>
    match m w with
    | (Returns a, w') => k a w'
    | (Raises e, w') => (Raises e, w')
    end.

Notation "x <- m ;; k" := (bind m (fun x => k))
  (at level 100, m at next level, right associativity).
Notation "m ;; k" := (bind m (fun _ => k))
  (at level 100, right associativity).

Definition get_self : M Blotter.t := fun w => (Returns (self w), w).
Definition modify_self (f : Blotter.t -> Blotter.t) : M unit :=
  fun w => (Returns tt, set_self (f (self w)) w).
Definition modify_portfolio (f : Portfolio.t -> Portfolio.t) : M unit :=
  modify_self (fun b => Blotter.set_portfolio (f (Blotter.portfolio b)) b).

(** Reading and updating the [Order] object behind a reference. A reference
    to no object does not arise from the blotter's own methods. *)
Definition deref (r : nat) : M Order.t :=
  fun w =>
    match objects w !! r with
    | Some o => (Returns o, w)
    | None => (Raises AttributeError, w)
    end.
Definition update (r : nat) (f : Order.t -> Order.t) : M unit :=
  o <- deref r ;;
  fun w => (Returns tt, set_objects (<[r := f o]> (objects w)) w).

(** A new object; its reference is returned. *)
Definition alloc (o : Order.t) : M nat :=
  fun w => (Returns (length (objects w)), set_objects (objects w ++ [o]) w).

(** [self.logger.warning(msg)] *)
Definition logger_warning (msg : string) : M unit :=
  fun w => (Returns tt, set_warnings (warnings w ++ [msg]) w).

(** [for x in l: acc = body(acc, x)] *)
Fixpoint for_fold {A S} (body : S -> A -> M S) (l : list A) (acc : S) : M S :=
  match l with
  | [] => ret acc
  | x :: l' => acc' <- body acc x ;; for_fold body l' acc'
  end.

(** [for x in l: body(x)] *)
Definition for_each {A} (l : list A) (body : A -> M unit) : M unit :=
  for_fold (fun _ x => body x) l tt.

(** ** The methods of [Blotter] *)

(** An argument of [__init__]: [None], an instance of the class the setter
    expects, or an object of another class (known by its class name). *)
Inductive arg (A : Type) :=
| ArgNone
| ArgInstance (a : A)
| ArgOther (class_name : string).
Arguments ArgNone {A}.
Arguments ArgInstance {A} a.
Arguments ArgOther {A} class_name.

Section Methods.
Context `{Collaborators}.

(** The [asset_finder] setter. *)
Definition asset_finder_setter (asset_finder : arg AssetFinder)
  : outcome AssetFinder :=
  match asset_finder with
  | ArgInstance f => Returns f
  | ArgNone => Returns AssetFinder_new
  | ArgOther c => Raises (NotAFinderError c)
  end.

(** The [portfolio] setter. *)
Definition portfolio_setter (portfolio : arg Portfolio.t)
  : outcome Portfolio.t :=
  match portfolio with
  | ArgInstance p => Returns p
  | ArgNone => Returns Portfolio_new
  | ArgOther c => Raises (NotAPortfolioError c)
  end.

(** [Blotter(asset_finder, portfolio, commission_model)] *)
Definition __init__ (asset_finder : arg AssetFinder)
    (portfolio : arg Portfolio.t) (commission_model : option CommissionModel)
  : outcome Blotter.t :=
  match asset_finder_setter asset_finder with
  | Raises e => Raises e
  | Returns finder =>
      match portfolio_setter portfolio with
      | Raises e => Raises e
      | Returns p =>
          Returns (Blotter.mk finder p [] [] None
                     (match commission_model with
                      | Some m => m
                      | None => PerOrderCommissionModel
                      end))
      end
  end.

(** [self[key]] *)
Definition __getitem__ (key : pyval) : M pyval :=
  b <- get_self ;;
  match dict_get (Blotter.orders b) key with
  | Some v => ret v
  | None => raise KeyError
  end.

(** [self[key] = value] *)
Definition __setitem__ (key value : pyval) : M unit :=
  match key with
  | PAsset a =>
      modify_self (fun b =>
        Blotter.set_orders
          (dict_set (Blotter.orders b) (PStr (Asset.ticker a)) value) b)
  | _ =>
      modify_self (fun b =>
        Blotter.set_orders (dict_set (Blotter.orders b) key value) b)
  end.

(** [del self[key]] *)
Definition __delitem__ (key : pyval) : M unit :=
  b <- get_self ;;
  match dict_del (Blotter.orders b) key with
  | Some d => modify_self (Blotter.set_orders d)
  | None => raise KeyError
  end.

Definition place_order (ticker : pyval) (action : TradeAction)
    (order_type : OrderType) (stop_price limit_price : option Q) (qty : Z)
    (date_placed : option datetime) (order_subtype : option OrderSubType)
  : M unit :=
  b <- get_self ;;
  let date_placed :=
    match date_placed with
    | None => Blotter.current_dt b
    | Some d => Some d
    end in
  o <- lift (Order_new ticker action order_type order_subtype stop_price
               limit_price qty date_placed) ;;
  order <- alloc o ;;
  b <- get_self ;;
  if dict_contains (Blotter.orders b) ticker then
    old <- __getitem__ ticker ;;
    new <- lift (py_add old (PTuple [POrder order])) ;;
    __setitem__ ticker new
  else
    __setitem__ ticker (PTuple [POrder order]).

Definition make_trade (order : nat) (price_per_share : Q)
    (trade_date : option datetime) : M unit :=
  b <- get_self ;;
  o <- deref order ;;
  let commission_cost :=
    calculate (Blotter.commission_model b) o price_per_share in
  update order
    (fun o => Order.set_commission (Order.commission o + commission_cost) o) ;;
  b <- get_self ;;
  o <- deref order ;;
  if check_liquidity (Blotter.portfolio b) commission_cost price_per_share
       (Order.qty o)
  then
    trade <- lift (Trade_from_order order o trade_date price_per_share
                     (Some commission_cost) "Executing Order.") ;;
    update order
      (fun o => Order.set_filled (Order.filled o + Trade.qty trade)%Z o) ;;
    modify_portfolio
      (fun p => Portfolio.set_cash (Portfolio.cash p + trade_value trade) p) ;;
    modify_self (fun b => Blotter.set_trades (Blotter.trades b ++ [trade]) b)
  else
    logger_warning "Not enough cash to place the trade.".

Definition _open_new_position (price_per_share : Q)
    (trade_date : option datetime) (order : nat) : M Trade.t :=
  o <- deref order ;;
  let asset := Order.asset o in
  let position :=
    match Order.action o with
    | SELL => SHORT
    | BUY => LONG
    end in
  let owned_asset :=
    OwnedAsset.mk asset (get_available_volume o trade_date) price_per_share
      position in
  modify_portfolio
    (fun p => Portfolio.set_cash
                (Portfolio.cash p + total_position_cost owned_asset) p) ;;
  modify_portfolio (fun p => Portfolio_setitem p asset owned_asset) ;;
  trade <- lift (Trade_from_order order o trade_date price_per_share None
                   ("Open new " ++ format_position position ++ " position")) ;;
  ret trade.

Definition _update_existing_position (price_per_share : Q)
    (trade_date : option datetime) (owned_asset : OwnedAsset.t) (order : nat)
  : M Trade.t :=
  o <- deref order ;;
  let owned_asset :=
    OwnedAsset_make_trade owned_asset (get_available_volume o trade_date)
      price_per_share in
  if negb (OwnedAsset.shares_owned owned_asset =? 0)%Z then
    modify_portfolio
      (fun p => Portfolio_setitem p
                  (PStr (Asset.ticker (OwnedAsset_asset owned_asset)))
                  owned_asset) ;;
    modify_portfolio
      (fun p => Portfolio.set_cash
                  (Portfolio.cash p + total_position_cost owned_asset) p) ;;
    trade <- lift (Trade_from_order order o trade_date price_per_share None
                     ("Update an existing "
                      ++ format_position (OwnedAsset.position owned_asset)
                      ++ " position")) ;;
    ret trade
  else
    modify_portfolio
      (fun p => Portfolio.set_cash
                  (Portfolio.cash p + total_position_value owned_asset) p) ;;
    b <- get_self ;;
    let held := Portfolio.owned_assets (Blotter.portfolio b) in
    let key := Asset.ticker (OwnedAsset_asset owned_asset) in
    match held !! key with
    | None => raise KeyError
    | Some _ =>
        modify_portfolio (Portfolio.set_owned_assets (delete key held)) ;;
        trade <- lift (Trade_from_order order o trade_date price_per_share
                         None
                         ("Close an existing "
                          ++ format_position (OwnedAsset.position owned_asset)
                          ++ " position")) ;;
        ret trade
    end.

(** The test [order.open and order.open_amount != 0] on whatever the loop
    variable holds. *)
Definition still_open (order : pyval) : M bool :=
  match order with
  | POrder r =>
      o <- deref r ;;
      ret (Order.open o && negb (Order.open_amount o =? 0)%Z)
  | _ => raise AttributeError
  end.

(** Iterating over [self.orders] yields its keys; each is unpacked into
    [ticker, asset_orders]. *)
Definition purge_closed_orders : M unit :=
  b <- get_self ;;
  open_orders <-
    for_fold
      (fun (open_orders : dict) (item : pyval) =>
         pair <- lift (unpack2 item) ;;
         let '(ticker, asset_orders) := pair in
         elements <- lift (py_iter asset_orders) ;;
         for_fold
           (fun (open_orders : dict) (order : pyval) =>
              keep <- still_open order ;;
              if keep then ret (dict_set open_orders ticker order)
              else ret open_orders)
           elements open_orders)
      (dict_keys (Blotter.orders b)) [] ;;
  modify_self (Blotter.set_orders open_orders).

(** [order.check_triggers(dt=dt, current_price=current_price)] on whatever
    the loop variable holds. *)
Definition call_check_triggers (order : pyval) (dt : option datetime)
    (current_price : Q) : M bool :=
  match order with
  | POrder r =>
      o <- deref r ;;
      let '(fired, o') := check_triggers o dt current_price in
      update r (fun _ => o') ;;
      ret fired
  | _ => raise AttributeError
  end.

Definition check_order_triggers (dt : option datetime) (current_price : Q)
  : M unit :=
  b <- get_self ;;
  for_each (dict_values (Blotter.orders b))
    (fun order =>
       fired <- call_check_triggers order dt current_price ;;
       if fired then
         match order with
         | POrder r => make_trade r current_price dt
         | _ => raise AttributeError
         end
       else ret tt) ;;
  purge_closed_orders.
End Methods.

(** ** The collaborators as the specification describes them

    Used to run the blotter on concrete inputs. *)

Module Spec.
(** Modelled from the spec: [Order(...)] is missing from the sources. It
    fails with [InvalidOrderError] if the quantity is not positive or a
    stop or limit order comes without its price; a new order is open,
    unfilled and has paid no commission. *)
Definition Order_new (asset : pyval) (action : TradeAction)
    (order_type : OrderType) (order_subtype : option OrderSubType)
    (stop limit : option Q) (qty : Z) (created : option datetime)
  : outcome Order.t :=
  let priced :=
    match order_type with
    | MARKET => true
    | STOP => bool_decide (is_Some stop)
    | LIMIT => bool_decide (is_Some limit)
    | STOP_LIMIT => bool_decide (is_Some stop) && bool_decide (is_Some limit)
    end in
  if (qty <=? 0)%Z || negb priced then Raises InvalidOrderError
  else Returns (Order.mk asset action order_type order_subtype stop limit
                  qty 0 created 0 true).

(** Modelled from the spec: a BUY stop is met when the price is at or above
    the stop, a SELL stop when it is at or below. *)
Definition stop_met (o : Order.t) (price : Q) : bool :=
  match Order.stop o, Order.action o with
  | Some s, BUY => Qle_bool s price
  | Some s, SELL => Qle_bool price s
  | None, _ => false
  end.

(** Modelled from the spec: a BUY limit is met when the price is at or below
    the limit, a SELL limit when it is at or above. *)
Definition limit_met (o : Order.t) (price : Q) : bool :=
  match Order.limit o, Order.action o with
  | Some l, BUY => Qle_bool price l
  | Some l, SELL => Qle_bool l price
  | None, _ => false
  end.

(** Modelled from the spec: [Order.check_triggers] is missing from the
    sources. A market order always fires, a stop order once the price
    crosses the stop, a limit order when the price is at least as good as
    the limit, a stop-limit order when both hold; the order is left as it
    is. *)
Definition check_triggers (o : Order.t) (dt : option datetime) (price : Q)
  : bool * Order.t :=
  (match Order.order_type o with
   | MARKET => true
   | STOP => stop_met o price
   | LIMIT => limit_met o price
   | STOP_LIMIT => stop_met o price && limit_met o price
   end, o).

(** Modelled from the spec: [Order.get_available_volume] is missing from
    the sources. It is the remaining fillable quantity, [open_amount]. *)
Definition get_available_volume (o : Order.t) (dt : option datetime) : Z :=
  Order.open_amount o.

(** Modelled from the spec: [Portfolio.check_liquidity] is missing from the
    sources. It is true iff [cash >= commission + price_per_share * qty]; the
    call carries no action, so this test of a cash outflow is all there is
    to model. *)
Definition check_liquidity (p : Portfolio.t) (commission price_per_share : Q)
    (qty : Z) : bool :=
  Qle_bool (commission + price_per_share * inject_Z qty) (Portfolio.cash p).

(** Modelled from the spec: [Portfolio.__setitem__] is missing from the
    sources. The position is written under the instrument's ticker. *)
Definition Portfolio_setitem (p : Portfolio.t) (key : pyval)
    (oa : OwnedAsset.t) : Portfolio.t :=
  match key with
  | PStr s => Portfolio.set_owned_assets (<[s := oa]> (Portfolio.owned_assets p)) p
  | PAsset a =>
      Portfolio.set_owned_assets
        (<[Asset.ticker a := oa]> (Portfolio.owned_assets p)) p
  | _ => p
  end.

(** Modelled from the spec: [Trade.from_order] is missing from the sources.
    It snapshots the order for the quantity still to fill and fails with
    [InvalidQuantityError] if that quantity is zero or negative. *)
Definition Trade_from_order (ref : nat) (o : Order.t)
    (trade_date : option datetime) (execution_price : Q)
    (commission : option Q) (strategy : string) : outcome Trade.t :=
  let qty := get_available_volume o trade_date in
  if (qty <=? 0)%Z then Raises InvalidQuantityError
  else Returns (Trade.mk (Order.asset o) (Order.action o) qty execution_price
                  (match commission with Some c => c | None => 0 end)
                  trade_date ref strategy).

(** Modelled from the spec: [Trade.trade_value] is missing from the
    sources. It is the signed cash impact net of commission: an outflow for
    BUY, an inflow for SELL. *)
Definition trade_value (t : Trade.t) : Q :=
  match Trade.action t with
  | BUY => - (Trade.price_per_share t * inject_Z (Trade.qty t)
              + Trade.commission t)
  | SELL => Trade.price_per_share t * inject_Z (Trade.qty t)
            - Trade.commission t
  end.

(** Modelled from the spec: [OwnedAsset.make_trade] is missing from the
    sources. The shares grow by the fill and the average price is the
    weighted average of the old position and the fill. *)
Definition OwnedAsset_make_trade (oa : OwnedAsset.t) (qty : Z)
    (price_per_share : Q) : OwnedAsset.t :=
  let shares := (OwnedAsset.shares_owned oa + qty)%Z in
  OwnedAsset.mk (OwnedAsset.ticker oa) shares
    (if (shares =? 0)%Z then OwnedAsset.average_share_price oa
     else (OwnedAsset.average_share_price oa
             * inject_Z (OwnedAsset.shares_owned oa)
           + price_per_share * inject_Z qty) / inject_Z shares)
    (OwnedAsset.position oa).

(** Modelled from the spec: the [asset] attribute of an [OwnedAsset] is
    missing from the sources. It is the instrument the position is in. *)
Definition OwnedAsset_asset (oa : OwnedAsset.t) : Asset.t :=
  match OwnedAsset.ticker oa with
  | PAsset a => a
  | PStr s => Asset.mk 0 s
  | _ => Asset.mk 0 ""
  end.

(** Modelled from the spec: the derived cost and value of a position are
    missing from the sources. Both are shares times the average price, the
    only price a position knows here. *)
Definition total_position_cost (oa : OwnedAsset.t) : Q :=
  OwnedAsset.average_share_price oa * inject_Z (OwnedAsset.shares_owned oa).
Definition total_position_value (oa : OwnedAsset.t) : Q :=
  OwnedAsset.average_share_price oa * inject_Z (OwnedAsset.shares_owned oa).

(** Modelled from the spec: the text of an [AssetPosition] member is
    missing from the sources; an [Enum] member prints as its qualified
    name. *)
Definition format_position (p : AssetPosition) : string :=
  match p with
  | LONG => "AssetPosition.LONG"
  | SHORT => "AssetPosition.SHORT"
  end.

(** Modelled from the spec: the per-order commission model is missing from
    the sources. It charges a flat fee per order regardless of quantity. *)
Definition PerOrder (fee : Q) : CommissionModel :=
  {| calculate := fun _ _ => fee |}.

(** The collaborators, for a default fee and the cash of a default
    portfolio. *)
Definition collaborators (fee cash : Q) : Collaborators :=
  Build_Collaborators (AssetFinder_instance 0) (Portfolio.mk cash ∅)
    (PerOrder fee) Order_new check_triggers get_available_volume
    check_liquidity Portfolio_setitem Trade_from_order trade_value
    OwnedAsset_make_trade OwnedAsset_asset total_position_cost
    total_position_value format_position.
End Spec.


(** ** Notions the statements use *)

(** The key under which [__setitem__] writes: the ticker of an [Asset], any
    other key as it is. *)
Definition stored_key (key : pyval) : pyval :=
  match key with
  | PAsset a => PStr (Asset.ticker a)
  | _ => key
  end.

(** A list of entries stands for a dictionary when no two of its keys are
    equal. *)
Fixpoint unique_keys (d : dict) : bool :=
  match d with
  | [] => true
  | (k, _) :: d' => negb (dict_contains d' k) && unique_keys d'
  end.

(** Every value of the table is a tuple, as [place_order] stores them. *)
Definition is_tuple (v : pyval) : bool :=
  match v with
  | PTuple _ => true
  | _ => false
  end.
Definition tuple_values (d : dict) : bool := forallb is_tuple (dict_values d).

(** The cash after a run of trades, each adding its value in turn. *)
Definition settle `{Collaborators} (cash : Q) (ts : list Trade.t) : Q :=
  fold_left (fun c t => (c + trade_value t)%Q) ts cash.

(** What a price tick may do to the world: append trades to the history,
    each adding its value to the cash, and update [Order] objects in place.
    The holdings, the finder, the commission model, the clock and the
    number of objects stay. *)
Definition trades_only `{Collaborators} (w w' : World) : Prop :=
  exists ts,
    Blotter.trades (self w') = (Blotter.trades (self w) ++ ts)%list /\
    Portfolio.cash (Blotter.portfolio (self w'))
      = settle (Portfolio.cash (Blotter.portfolio (self w))) ts /\
    Portfolio.owned_assets (Blotter.portfolio (self w'))
      = Portfolio.owned_assets (Blotter.portfolio (self w)) /\
    Blotter.asset_finder (self w') = Blotter.asset_finder (self w) /\
    Blotter.commission_model (self w') = Blotter.commission_model (self w) /\
    Blotter.current_dt (self w') = Blotter.current_dt (self w) /\
    length (objects w') = length (objects w).

(** ** Worlds used as concrete inputs *)

Module Example.
(** A blotter with no orders, a portfolio holding [cash] and nothing else,
    and a commission model charging a flat fee of 1. *)
Definition fresh (cash : Q) : World :=
  mkWorld (Blotter.mk (AssetFinder_instance 0) (Portfolio.mk cash ∅) [] []
             None (Spec.PerOrder 1))
    [] [].

Definition env : Collaborators := Spec.collaborators 1 0.

(** The world after
    [place_order('AAPL', TradeAction.BUY, OrderType.MARKET, qty=qty)]. *)
Definition one_buy (cash : Q) (qty : Z) : World :=
  snd (place_order (H := env) (PStr "AAPL") BUY MARKET None None qty None
         None (fresh cash)).

(** The [Asset] object for AAPL. *)
Definition aapl : Asset.t := Asset.mk 7 "AAPL".

(** A blotter whose table holds the order object itself under its ticker,
    as the docstring of [__setitem__] has it: a market BUY of 10 shares. *)
Definition bare_order (cash : Q) : World :=
  mkWorld (Blotter.mk (AssetFinder_instance 0) (Portfolio.mk cash ∅)
             [(PStr "AAPL", POrder 0)] [] None (Spec.PerOrder 1))
    [Order.mk (PStr "AAPL") BUY MARKET None None None 10 0 None 0 true] [].

(** A long position of 5 AAPL shares bought at 100. *)
Definition long5 : OwnedAsset.t := OwnedAsset.mk (PStr "AAPL") 5 100 LONG.

(** A short position of 5 AAPL shares sold at 100. *)
Definition short5 : OwnedAsset.t := OwnedAsset.mk (PStr "AAPL") (-5) 100 SHORT.

(** A limit SELL of 5 AAPL shares at 100 and a market BUY of 5. *)
Definition sell5 : Order.t :=
  Order.mk (PStr "AAPL") SELL LIMIT None None (Some 100%Q) 5 0 None 0 true.
Definition buy5 : Order.t :=
  Order.mk (PStr "AAPL") BUY MARKET None None None 5 0 None 0 true.

(** A world with one order object outside any table and a portfolio
    holding [held]: the setting of the two position helpers. *)
Definition holding (held : gmap string OwnedAsset.t) (o : Order.t) : World :=
  mkWorld (Blotter.mk (AssetFinder_instance 0) (Portfolio.mk 1000 held) [] []
             None (Spec.PerOrder 1))
    [o] [].

(** A market BUY of 10 AAPL shares that has been filled in full. *)
Definition filled10 : Order.t :=
  Order.mk (PStr "AAPL") BUY MARKET None None None 10 10 None 1 false.

(** The collaborators of [env], except that every position reports [value]
    as its [total_position_value]: what the closing fill brought in, which
    the shares left in the position, none, do not tell. *)
Definition env_valued (value : Q) : Collaborators :=
  Build_Collaborators (AssetFinder_instance 0) (Portfolio.mk 0 ∅)
    (Spec.PerOrder 1) Spec.Order_new Spec.check_triggers
    Spec.get_available_volume Spec.check_liquidity Spec.Portfolio_setitem
    Spec.Trade_from_order Spec.trade_value Spec.OwnedAsset_make_trade
    Spec.OwnedAsset_asset Spec.total_position_cost (fun _ => value)
    Spec.format_position.
End Example.

(** ** Facts about the object model *)

Example one_buy_table :
  Blotter.orders (self (Example.one_buy 10 100))
    = [(PStr "AAPL", PTuple [POrder 0])].
Proof. reflexivity. Qed.

Example one_buy_object :
  objects (Example.one_buy 10 100) =
    [Order.mk (PStr "AAPL") BUY MARKET None None None 100 0 None 0 true].
Proof. reflexivity. Qed.

Lemma py_eqb_str_refl s : py_eqb (PStr s) (PStr s) = true.
Proof. simpl. apply String.eqb_refl. Qed.

Lemma py_eqb_to_str k s : py_eqb k (PStr s) = true -> k = PStr s.
Proof.
  destruct k; simpl; try discriminate.
  intros E. apply String.eqb_eq in E. now subst.
Qed.

Lemma dict_get_set_str d s v : dict_get (dict_set d (PStr s) v) (PStr s) = Some v.
Proof.
  induction d as [|[k' v'] d IH]; simpl.
  - now rewrite String.eqb_refl.
  - destruct (py_eqb k' (PStr s)) eqn:E; simpl; rewrite E; auto.
Qed.

(** Writing under a string never creates or changes an entry that an
    [Asset] object finds. *)
Lemma dict_get_set_str_asset d s v a :
  dict_get (dict_set d (PStr s) v) (PAsset a) = dict_get d (PAsset a).
Proof.
  induction d as [|[k' v'] d IH]; simpl; [reflexivity|].
  destruct (py_eqb k' (PStr s)) eqn:E; simpl.
  - apply py_eqb_to_str in E. subst k'. reflexivity.
  - now rewrite IH.
Qed.

Lemma deref_some w r o : objects w !! r = Some o -> deref r w = (Returns o, w).
Proof. unfold deref. now intros ->. Qed.

Lemma update_some w r o f :
  objects w !! r = Some o ->
  update r f w = (Returns tt, set_objects (<[r := f o]> (objects w)) w).
Proof. unfold update, bind, deref. now intros ->. Qed.

Lemma lookup_updated (os : list Order.t) r o o' :
  os !! r = Some o -> <[r := o']> os !! r = Some o'.
Proof.
  intros E. apply list_lookup_insert_eq. eapply lookup_lt_Some, E.
Qed.

(** ** [make_trade] *)

Section MakeTrade.
Context `{Collaborators}.

(** What [make_trade] does, step by step, on an order object [o]. *)
Lemma make_trade_run w order o price trade_date :
  objects w !! order = Some o ->
  let cost := calculate (Blotter.commission_model (self w)) o price in
  let o1 := Order.set_commission (Order.commission o + cost) o in
  let w1 := set_objects (<[order := o1]> (objects w)) w in
  let p := Blotter.portfolio (self w) in
  make_trade order price trade_date w =
    if check_liquidity p cost price (Order.qty o) then
      match Trade_from_order order o1 trade_date price (Some cost)
              "Executing Order." with
      | Raises e => (Raises e, w1)
      | Returns t =>
          (Returns tt,
           mkWorld
             (Blotter.set_trades (Blotter.trades (self w) ++ [t])
                (Blotter.set_portfolio
                   (Portfolio.set_cash (Portfolio.cash p + trade_value t) p)
                   (self w)))
             (<[order := Order.set_filled
                           (Order.filled o + Trade.qty t)%Z o1]> (objects w))
             (warnings w))
      end
    else (Returns tt, set_warnings (warnings w ++ ["Not enough cash to place the trade."]) w1).
Proof.
  intros E cost o1 w1 p.
  assert (E1 : objects w1 !! order = Some o1) by (eapply lookup_updated, E).
  unfold make_trade, bind at 1, get_self.
  unfold bind at 1. rewrite (deref_some E).
  unfold bind at 1. rewrite (update_some _ E). fold cost o1 w1.
  unfold bind at 1, get_self.
  unfold bind at 1. rewrite (deref_some E1).
  change (Blotter.portfolio (self w1)) with p.
  change (Order.qty o1) with (Order.qty o).
  destruct (check_liquidity p cost price (Order.qty o)); [|reflexivity].
  unfold bind at 1, lift.
  destruct (Trade_from_order order o1 trade_date price (Some cost) _) as [t|e];
    [|reflexivity].
  unfold bind at 1. rewrite (update_some _ E1).
  unfold bind, modify_portfolio, modify_self; simpl.
  now rewrite list_insert_insert_eq.
Qed.

(** [make_trade] never touches the holdings of the portfolio. *)
Lemma make_trade_keeps_positions w order price trade_date :
  Portfolio.owned_assets
    (Blotter.portfolio (self (snd (make_trade order price trade_date w)))) =
  Portfolio.owned_assets (Blotter.portfolio (self w)).
Proof.
  destruct (objects w !! order) as [o|] eqn:E.
  - rewrite (make_trade_run _ _ E).
    destruct (check_liquidity _ _ _ _); [|reflexivity].
    now destruct (Trade_from_order _ _ _ _ _ _).
  - unfold make_trade, bind, get_self, deref. now rewrite E.
Qed.

(** C1, as amended: when the liquidity check returns false, [make_trade]
    returns normally, leaves the blotter (its portfolio's cash and
    positions, its trade history, its table) as it was and the order's
    filled quantity too, and logs a warning; the order's accumulated
    commission, which is charged before the check, has grown by the
    commission computed for the rejected trade. *)
Theorem make_trade_rejected w order o price trade_date :
  objects w !! order = Some o ->
  let cost := calculate (Blotter.commission_model (self w)) o price in
  check_liquidity (Blotter.portfolio (self w)) cost price (Order.qty o)
    = false ->
  exists w' o',
    make_trade order price trade_date w = (Returns tt, w') /\
    self w' = self w /\
    objects w' = <[order := o']> (objects w) /\
    objects w' !! order = Some o' /\
    o' = Order.set_commission (Order.commission o + cost) o /\
    Order.filled o' = Order.filled o /\
    Order.commission o' = (Order.commission o + cost)%Q /\
    warnings w' = (warnings w ++ ["Not enough cash to place the trade."])%list.
Proof.
  intros E cost L.
  rewrite (make_trade_run _ _ E). fold cost. rewrite L.
  eexists _, _. split; [reflexivity|]. simpl.
  repeat split. eapply lookup_updated, E.
Qed.
End MakeTrade.

(** C1, witness: cash 10, a BUY of 100 shares at 5 with a fee of 1. *)
Lemma make_trade_rejected_witness :
  exists w' o',
    make_trade (H := Example.env) 0 5 None (Example.one_buy 10 100)
      = (Returns tt, w') /\
    self w' = self (Example.one_buy 10 100) /\
    objects w' = <[0%nat := o']> (objects (Example.one_buy 10 100)) /\
    objects w' !! 0%nat = Some o' /\
    o' = Order.set_commission (0 + 1)
           (Order.mk (PStr "AAPL") BUY MARKET None None None 100 0 None 0 true) /\
    Order.filled o' = 0%Z /\
    Order.commission o' = (0 + 1)%Q /\
    warnings w' = ["Not enough cash to place the trade."].
Proof.
  apply (@make_trade_rejected Example.env (Example.one_buy 10 100) 0%nat
           (Order.mk (PStr "AAPL") BUY MARKET None None None 100 0 None 0 true)
           5 None); reflexivity.
Defined.

(** C1, as stated, fails: with cash 10, a BUY of 100 shares at 5 and a fee
    of 1 the liquidity check returns false, and yet the order's accumulated
    commission goes from 0 to 1. *)
Lemma make_trade_rejected_charges_commission :
  check_liquidity (Collaborators := Example.env)
    (Blotter.portfolio (self (Example.one_buy 10 100))) 1 5 100 = false /\
  (Order.commission <$> objects (Example.one_buy 10 100) !! 0%nat)
    = Some 0%Q /\
  (Order.commission <$>
     objects (snd (make_trade (H := Example.env) 0 5 None
                     (Example.one_buy 10 100))) !! 0%nat)
    = Some (0 + 1)%Q /\
  (Order.commission <$>
     objects (snd (make_trade (H := Example.env) 0 5 None
                     (Example.one_buy 10 100))) !! 0%nat)
    <> (Order.commission <$> objects (Example.one_buy 10 100) !! 0%nat).
Proof.
  repeat split; try reflexivity. vm_compute. discriminate.
Qed.

(** C2 fails on the code: an accepted BUY of 10 shares at 55 out of 1000 in
    cash builds the trade, fills the order, debits the cash and records the
    trade, but the portfolio's holdings stay empty: no position is opened. *)
Theorem make_trade_accepted_opens_no_position :
  exists w' t,
    make_trade (H := Example.env) 0 55 None (Example.one_buy 1000 10)
      = (Returns tt, w') /\
    Blotter.trades (self w') = [t] /\
    Trade.qty t = 10%Z /\
    (Order.filled <$> objects w' !! 0%nat) = Some 10%Z /\
    (Portfolio.cash (Blotter.portfolio (self w')) == 1000 - (55 * 10 + 1))%Q /\
    Portfolio.owned_assets (Blotter.portfolio (self (Example.one_buy 1000 10)))
      = ∅ /\
    Portfolio.owned_assets (Blotter.portfolio (self w')) = ∅.
Proof.
  eexists _, _. split; [vm_compute; reflexivity|].
  repeat split; vm_compute; reflexivity.
Qed.

(** ** The liquidity gate, with the collaborators of the specification *)

Lemma app_one_neq {A} (l : list A) (x : A) : l <> (l ++ [x])%list.
Proof.
  intros E. apply (f_equal (@length A)) in E.
  rewrite length_app in E. simpl in E. lia.
Qed.

(** C3: with the liquidity check and the trade value of the specification,
    whenever [make_trade] records a trade the check had returned true, that
    is, the cash before the trade covered the commission plus price times
    the order's quantity; the cash after it is the cash before plus the
    trade's value, and for a BUY at a non-negative price, of an order whose
    filled quantity is not negative, it is not negative either. A trade is
    recorded only behind that check. *)
Theorem accepted_trade_had_cash (fee cash0 : Q) w order o price trade_date t :
  objects w !! order = Some o ->
  Blotter.trades
    (self (snd (make_trade (H := Spec.collaborators fee cash0) order price
                  trade_date w)))
    = (Blotter.trades (self w) ++ [t])%list ->
  Spec.check_liquidity (Blotter.portfolio (self w))
    (calculate (Blotter.commission_model (self w)) o price) price
    (Order.qty o) = true /\
  (calculate (Blotter.commission_model (self w)) o price
     + price * inject_Z (Order.qty o)
   <= Portfolio.cash (Blotter.portfolio (self w)))%Q /\
  Portfolio.cash
    (Blotter.portfolio
       (self (snd (make_trade (H := Spec.collaborators fee cash0) order price
                     trade_date w))))
    = (Portfolio.cash (Blotter.portfolio (self w)) + Spec.trade_value t)%Q /\
  (Order.action o = BUY -> (0 <= Order.filled o)%Z -> (0 <= price)%Q ->
   (0 <= Portfolio.cash
           (Blotter.portfolio
              (self (snd (make_trade (H := Spec.collaborators fee cash0) order
                            price trade_date w)))))%Q).
Proof.
  intros E.
  rewrite (make_trade_run (H := Spec.collaborators fee cash0) price trade_date E).
  cbn [check_liquidity Trade_from_order trade_value Spec.collaborators].
  set (cost := calculate (Blotter.commission_model (self w)) o price).
  destruct (Spec.check_liquidity _ cost price (Order.qty o)) eqn:L.
  2:{ simpl. intros T. now apply app_one_neq in T. }
  unfold Spec.Trade_from_order, Spec.get_available_volume, Order.open_amount.
  cbn [Order.qty Order.filled Order.set_commission Order.asset Order.action].
  destruct (Order.qty o - Order.filled o <=? 0)%Z eqn:V.
  { simpl. intros T. now apply app_one_neq in T. }
  cbn [snd self Blotter.trades Blotter.set_trades Blotter.portfolio
       Blotter.set_portfolio Portfolio.cash Portfolio.set_cash].
  intros T. apply app_inv_head in T. injection T as <-.
  assert (Hc : (cost + price * inject_Z (Order.qty o)
                <= Portfolio.cash (Blotter.portfolio (self w)))%Q)
    by (now apply Qle_bool_iff).
  split; [reflexivity|]. split; [exact Hc|]. split; [reflexivity|].
  intros B F P. unfold Spec.trade_value.
  cbn [Trade.action Trade.price_per_share Trade.qty Trade.commission].
  rewrite B.
  assert (Hq : (inject_Z (Order.qty o - Order.filled o)
                == inject_Z (Order.qty o) - inject_Z (Order.filled o))%Q).
  { unfold Z.sub. rewrite inject_Z_plus, inject_Z_opp. reflexivity. }
  rewrite Hq.
  assert (Hf : (0 <= inject_Z (Order.filled o))%Q).
  { change 0%Q with (inject_Z 0). now rewrite <- Zle_Qle. }
  pose proof (Qmult_le_0_compat _ _ P Hf) as Hpf.
  lra.
Qed.

(** C3, witness: cash 1000, a BUY of 10 shares at 55 with a fee of 1. *)
Lemma accepted_trade_had_cash_witness :
  (1 + 55 * inject_Z 10 <= 1000)%Q /\
  (0 <= Portfolio.cash
          (Blotter.portfolio
             (self (snd (make_trade (H := Spec.collaborators 1 0) 0 55 None
                           (Example.one_buy 1000 10))))))%Q.
Proof.
  pose proof (@accepted_trade_had_cash 1 0 (Example.one_buy 1000 10) 0%nat
                (Order.mk (PStr "AAPL") BUY MARKET None None None 10 0 None 0
                   true)
                55 None
                (Trade.mk (PStr "AAPL") BUY 10 55 1 None 0 "Executing Order.")
                eq_refl eq_refl) as (_ & Hc & _ & Hn).
  split; [exact Hc|].
  apply Hn; [reflexivity| |]; vm_compute; discriminate.
Defined.

(** ** [purge_closed_orders] and [check_order_triggers] *)

(** Unpacking a string into two names works for two-character strings
    only, and then yields two one-character strings. *)
Lemma unpack2_str s :
  unpack2 (PStr s) = Raises ValueError \/
  exists c1 c2, unpack2 (PStr s)
                = Returns (PStr (String c1 EmptyString),
                           PStr (String c2 EmptyString)).
Proof.
  destruct s as [|c1 [|c2 [|c3 s]]]; cbn; eauto.
Qed.

(** As soon as the first key of the table is a string, the purge raises
    and leaves the table as it was: a key that is not two characters long
    cannot be unpacked, and a character has no attribute [open]. *)
Lemma purge_closed_orders_str_key w s v rest :
  Blotter.orders (self w) = (PStr s, v) :: rest ->
  exists e, purge_closed_orders w = (Raises e, w)
            /\ (e = ValueError \/ e = AttributeError).
Proof.
  intros E. unfold purge_closed_orders, bind at 1, get_self. rewrite E.
  cbn [dict_keys map fst for_fold].
  unfold bind at 1. unfold bind at 1. unfold bind at 1, lift.
  destruct (unpack2_str s) as [-> | (c1 & c2 & ->)].
  - exists ValueError. auto.
  - exists AttributeError. split; [reflexivity | auto].
Qed.

(** An empty table is purged to an empty table. *)
Lemma purge_closed_orders_empty w :
  Blotter.orders (self w) = [] ->
  purge_closed_orders w = (Returns tt, set_self (Blotter.set_orders [] (self w)) w).
Proof.
  intros E. unfold purge_closed_orders, bind, get_self. now rewrite E.
Qed.

Section Triggers.
Context `{Collaborators}.

(** Where [place_order] stored a tuple, the trigger loop stops at once:
    a tuple has no attribute [check_triggers]. *)
Lemma check_order_triggers_tuple w k items rest dt price :
  Blotter.orders (self w) = (k, PTuple items) :: rest ->
  check_order_triggers dt price w = (Raises AttributeError, w).
Proof.
  intros E. unfold check_order_triggers, bind at 1, get_self. now rewrite E.
Qed.

Lemma make_trade_keeps_orders w order price trade_date :
  Blotter.orders (self (snd (make_trade order price trade_date w)))
    = Blotter.orders (self w).
Proof.
  destruct (objects w !! order) as [o|] eqn:E.
  - rewrite (make_trade_run _ _ E).
    destruct (check_liquidity _ _ _ _); [|reflexivity].
    now destruct (Trade_from_order _ _ _ _ _ _).
  - unfold make_trade, bind, get_self, deref. now rewrite E.
Qed.

Lemma call_check_triggers_keeps_self v dt price w :
  self (snd (call_check_triggers v dt price w)) = self w.
Proof.
  destruct v; try reflexivity.
  unfold call_check_triggers, bind at 1, deref.
  destruct (objects w !! ref) as [o|] eqn:E; [|reflexivity].
  destruct (check_triggers o dt price) as [fired o'].
  unfold bind, update, deref, bind. now rewrite E.
Qed.

(** The trigger loop never changes the table. *)
Lemma trigger_loop_keeps_orders dt price (l : list pyval) w :
  Blotter.orders
    (self (snd (for_each l
                  (fun order =>
                     fired <- call_check_triggers order dt price ;;
                     if fired then
                       match order with
                       | POrder r => make_trade r price dt
                       | _ => raise AttributeError
                       end
                     else ret tt) w)))
    = Blotter.orders (self w).
Proof.
  unfold for_each. revert w.
  induction l as [|v l IH]; intros w; [reflexivity|].
  cbn [for_fold]. unfold bind at 1. unfold bind at 1.
  pose proof (call_check_triggers_keeps_self v dt price w) as S1.
  destruct (call_check_triggers v dt price w) as [[fired|e] w1];
    cbn [snd] in S1; [|cbn; now rewrite S1].
  destruct fired.
  - destruct v; try (cbn; now rewrite S1).
    pose proof (make_trade_keeps_orders w1 ref price dt) as S2.
    destruct (make_trade ref price dt w1) as [[[]|e] w2]; cbn [snd] in S2.
    + rewrite IH. now rewrite S2, S1.
    + cbn. now rewrite S2, S1.
  - cbn [ret]. rewrite IH. now rewrite S1.
Qed.

(** X18: with a table that is not empty and whose first key is a string, as
    [__setitem__] stores keys, [check_order_triggers] always ends with an
    exception, and the table is never purged. *)
Lemma check_order_triggers_raises w s v rest dt price :
  Blotter.orders (self w) = (PStr s, v) :: rest ->
  exists e w', check_order_triggers dt price w = (Raises e, w')
               /\ Blotter.orders (self w') = Blotter.orders (self w).
Proof.
  intros E. unfold check_order_triggers, bind at 1, get_self.
  unfold bind at 1.
  pose proof (trigger_loop_keeps_orders dt price
                (dict_values (Blotter.orders (self w))) w) as K.
  destruct (for_each _ _ w) as [[[]|e] w1]; cbn [snd] in K.
  - destruct (@purge_closed_orders_str_key w1 s v rest) as (e & -> & _);
      [now rewrite K|].
    now exists e, w1.
  - now exists e, w1.
Qed.
End Triggers.

(** C4 fails on the code. On the table [place_order] builds, whose value is
    a tuple of orders, [check_order_triggers] raises [AttributeError] before
    it has checked any order: no trigger is checked, no trade made, no purge
    run. On a table holding a bare order, the order is checked and traded,
    and then the purge raises [ValueError] on the key, so that the order,
    though filled, stays in the table. *)
Theorem check_order_triggers_fails :
  check_order_triggers (H := Example.env) None 5 (Example.one_buy 10 100)
    = (Raises AttributeError, Example.one_buy 10 100) /\
  exists w',
    check_order_triggers (H := Example.env) None 55 (Example.bare_order 1000)
      = (Raises ValueError, w') /\
    length (Blotter.trades (self w')) = 1%nat /\
    (Order.open_amount <$> objects w' !! 0%nat) = Some 0%Z /\
    Blotter.orders (self w') = [(PStr "AAPL", POrder 0)].
Proof.
  split; [reflexivity|].
  eexists. split; [vm_compute; reflexivity|].
  repeat split; vm_compute; reflexivity.
Qed.

(** C5 fails on the code. With one open, unfilled order for AAPL in the
    table, [purge_closed_orders] raises [ValueError] (the key does not unpack
    into two names) and rebuilds nothing; with a two-letter ticker it raises
    [AttributeError] instead. *)
Theorem purge_closed_orders_fails :
  (Order.open <$> objects (Example.one_buy 10 100) !! 0%nat) = Some true /\
  (Order.open_amount <$> objects (Example.one_buy 10 100) !! 0%nat)
    = Some 100%Z /\
  purge_closed_orders (Example.one_buy 10 100)
    = (Raises ValueError, Example.one_buy 10 100) /\
  fst (purge_closed_orders
         (snd (place_order (H := Example.env) (PStr "FB") BUY MARKET None None
                 100 None None (Example.fresh 10))))
    = Raises AttributeError.
Proof.
  repeat split; vm_compute; reflexivity.
Qed.

(** ** [place_order] *)

Section PlaceOrder.
Context `{Collaborators}.

(** X7: called with a ticker string that has a tuple of orders in the table,
    [place_order] creates one order object and puts it after the orders
    already there, in the same entry. *)
Lemma place_order_str_appends w s items action order_type stop_price
    limit_price qty date_placed order_subtype o :
  dict_get (Blotter.orders (self w)) (PStr s) = Some (PTuple items) ->
  Order_new (PStr s) action order_type order_subtype stop_price limit_price
    qty (match date_placed with
         | None => Blotter.current_dt (self w)
         | Some d => Some d
         end) = Returns o ->
  exists w',
    place_order (PStr s) action order_type stop_price limit_price qty
      date_placed order_subtype w = (Returns tt, w') /\
    objects w' = (objects w ++ [o])%list /\
    Blotter.orders (self w')
      = dict_set (Blotter.orders (self w)) (PStr s)
          (PTuple (items ++ [POrder (length (objects w))])) /\
    dict_get (Blotter.orders (self w')) (PStr s)
      = Some (PTuple (items ++ [POrder (length (objects w))])).
Proof.
  intros G N. unfold place_order, bind at 1, get_self.
  unfold bind at 1, lift. rewrite N.
  unfold bind at 1, alloc. unfold bind at 1, get_self.
  cbn [self set_objects]. unfold dict_contains. rewrite G.
  unfold bind at 1, __getitem__, bind at 1, get_self.
  cbn [self set_objects]. rewrite G. cbn [ret].
  unfold bind, lift, py_add, __setitem__, modify_self.
  eexists. split; [reflexivity|]. cbn.
  repeat split. apply dict_get_set_str.
Qed.

(** X8: called with a ticker string that is not in the table, [place_order]
    creates one order object and stores a one-element tuple holding it. *)
Lemma place_order_str_new w s action order_type stop_price limit_price qty
    date_placed order_subtype o :
  dict_get (Blotter.orders (self w)) (PStr s) = None ->
  Order_new (PStr s) action order_type order_subtype stop_price limit_price
    qty (match date_placed with
         | None => Blotter.current_dt (self w)
         | Some d => Some d
         end) = Returns o ->
  exists w',
    place_order (PStr s) action order_type stop_price limit_price qty
      date_placed order_subtype w = (Returns tt, w') /\
    objects w' = (objects w ++ [o])%list /\
    dict_get (Blotter.orders (self w')) (PStr s)
      = Some (PTuple [POrder (length (objects w))]).
Proof.
  intros G N. unfold place_order, bind at 1, get_self.
  unfold bind at 1, lift. rewrite N.
  unfold bind at 1, alloc. unfold bind at 1, get_self.
  cbn [self set_objects]. unfold dict_contains. rewrite G.
  unfold __setitem__, modify_self.
  eexists. split; [reflexivity|]. cbn.
  repeat split. apply dict_get_set_str.
Qed.
End PlaceOrder.

(** C6 fails on the code when the instrument is given as an [Asset], which
    the method accepts. With one order for AAPL in the table, placing a
    second one through the [Asset] object for AAPL returns normally and
    leaves under ["AAPL"] a one-element tuple holding the new order only:
    the first order has been replaced. Given as the string ["AAPL"], the
    same order is appended. *)
Theorem place_order_asset_replaces :
  Blotter.orders (self (Example.one_buy 10 100))
    = [(PStr "AAPL", PTuple [POrder 0])] /\
  fst (place_order (H := Example.env) (PAsset Example.aapl) SELL MARKET None
         None 5 None None (Example.one_buy 10 100)) = Returns tt /\
  Blotter.orders
    (self (snd (place_order (H := Example.env) (PAsset Example.aapl) SELL
                  MARKET None None 5 None None (Example.one_buy 10 100))))
    = [(PStr "AAPL", PTuple [POrder 1])] /\
  Blotter.orders
    (self (snd (place_order (H := Example.env) (PStr "AAPL") SELL
                  MARKET None None 5 None None (Example.one_buy 10 100))))
    = [(PStr "AAPL", PTuple [POrder 0; POrder 1])].
Proof.
  repeat split; vm_compute; reflexivity.
Qed.

(** ** The position helpers *)

Section Positions.
Context `{Collaborators}.

(** C8: [_open_new_position] builds an [OwnedAsset] for the order's
    instrument whose side is SHORT when the order's action is SELL and
    LONG otherwise, whose size is the order's available volume at the
    trade date and whose average price is the execution price; it adds
    the position's [total_position_cost] to the portfolio's cash, stores
    the position in the portfolio under the order's instrument, changes
    nothing else, and ends as [Trade.from_order] does. *)
Theorem open_new_position_spec w price trade_date order o :
  objects w !! order = Some o ->
  exists owned_asset,
    OwnedAsset.ticker owned_asset = Order.asset o /\
    (Order.action o = SELL -> OwnedAsset.position owned_asset = SHORT) /\
    (Order.action o <> SELL -> OwnedAsset.position owned_asset = LONG) /\
    OwnedAsset.shares_owned owned_asset = get_available_volume o trade_date /\
    OwnedAsset.average_share_price owned_asset = price /\
    Blotter.portfolio
      (self (snd (_open_new_position price trade_date order w)))
      = Portfolio_setitem
          (Portfolio.mk
             (Portfolio.cash (Blotter.portfolio (self w))
              + total_position_cost owned_asset)
             (Portfolio.owned_assets (Blotter.portfolio (self w))))
          (Order.asset o) owned_asset /\
    ((forall p key a,
         Portfolio.cash (Portfolio_setitem p key a) = Portfolio.cash p) ->
     Portfolio.cash
       (Blotter.portfolio
          (self (snd (_open_new_position price trade_date order w))))
     = (Portfolio.cash (Blotter.portfolio (self w))
        + total_position_cost owned_asset)%Q) /\
    snd (_open_new_position price trade_date order w)
      = mkWorld
          (Blotter.mk (Blotter.asset_finder (self w))
             (Blotter.portfolio
                (self (snd (_open_new_position price trade_date order w))))
             (Blotter.orders (self w)) (Blotter.trades (self w))
             (Blotter.current_dt (self w)) (Blotter.commission_model (self w)))
          (objects w) (warnings w) /\
    fst (_open_new_position price trade_date order w)
      = Trade_from_order order o trade_date price None
          ("Open new " ++ format_position (OwnedAsset.position owned_asset)
           ++ " position").
Proof.
  intros E.
  set (side := match Order.action o with SELL => SHORT | BUY => LONG end).
  set (oa := OwnedAsset.mk (Order.asset o)
               (get_available_volume o trade_date) price side).
  assert (R : _open_new_position price trade_date order w
              = (Trade_from_order order o trade_date price None
                   ("Open new " ++ format_position side ++ " position"),
                 set_self
                   (Blotter.set_portfolio
                      (Portfolio_setitem
                         (Portfolio.set_cash
                            (Portfolio.cash (Blotter.portfolio (self w))
                             + total_position_cost oa)
                            (Blotter.portfolio (self w)))
                         (Order.asset o) oa)
                      (self w)) w)).
  { unfold _open_new_position, bind at 1. rewrite (deref_some E).
    unfold bind, modify_portfolio, modify_self, lift, ret.
    fold side oa.
    now destruct (Trade_from_order _ _ _ _ _ _) as [t|e]. }
  exists oa. rewrite R.
  cbn [fst snd self set_self Blotter.portfolio Blotter.set_portfolio
       Blotter.asset_finder Blotter.orders Blotter.trades Blotter.current_dt
       Blotter.commission_model objects warnings Portfolio.set_cash
       OwnedAsset.ticker OwnedAsset.position OwnedAsset.shares_owned
       OwnedAsset.average_share_price oa].
  split; [reflexivity|].
  split; [intros A; subst side; now rewrite A|].
  split; [intros A; subst side; now destruct (Order.action o)|].
  split; [reflexivity|]. split; [reflexivity|]. split; [reflexivity|].
  split; [intros K; now rewrite K|].
  split; reflexivity.
Qed.

(** C7: [_update_existing_position] applies the fill to the position. If
    the shares left are not zero, it stores the position back in the
    portfolio under its ticker and then adds [total_position_cost] to the
    cash; if they are zero, it adds [total_position_value] to the cash and
    removes the position, held under its ticker, from the holdings. In
    both cases it returns the trade [Trade.from_order] builds. *)
Theorem update_existing_position_spec w price trade_date owned_asset order o :
  objects w !! order = Some o ->
  is_Some (Portfolio.owned_assets (Blotter.portfolio (self w))
             !! Asset.ticker
                  (OwnedAsset_asset
                     (OwnedAsset_make_trade owned_asset
                        (get_available_volume o trade_date) price))) ->
  (forall note, exists t,
      Trade_from_order order o trade_date price None note = Returns t) ->
  exists t w',
    _update_existing_position price trade_date owned_asset order w
      = (Returns t, w') /\
    objects w' = objects w /\
    Blotter.trades (self w') = Blotter.trades (self w) /\
    (OwnedAsset.shares_owned
       (OwnedAsset_make_trade owned_asset
          (get_available_volume o trade_date) price) = 0%Z ->
     Blotter.portfolio (self w')
       = Portfolio.mk
           (Portfolio.cash (Blotter.portfolio (self w))
            + total_position_value
                (OwnedAsset_make_trade owned_asset
                   (get_available_volume o trade_date) price))
           (delete
              (Asset.ticker
                 (OwnedAsset_asset
                    (OwnedAsset_make_trade owned_asset
                       (get_available_volume o trade_date) price)))
              (Portfolio.owned_assets (Blotter.portfolio (self w)))) /\
     Portfolio.owned_assets (Blotter.portfolio (self w'))
       !! Asset.ticker
            (OwnedAsset_asset
               (OwnedAsset_make_trade owned_asset
                  (get_available_volume o trade_date) price)) = None) /\
    (OwnedAsset.shares_owned
       (OwnedAsset_make_trade owned_asset
          (get_available_volume o trade_date) price) <> 0%Z ->
     Blotter.portfolio (self w')
       = Portfolio.set_cash
           (Portfolio.cash
              (Portfolio_setitem (Blotter.portfolio (self w))
                 (PStr (Asset.ticker
                          (OwnedAsset_asset
                             (OwnedAsset_make_trade owned_asset
                                (get_available_volume o trade_date) price))))
                 (OwnedAsset_make_trade owned_asset
                    (get_available_volume o trade_date) price))
            + total_position_cost
                (OwnedAsset_make_trade owned_asset
                   (get_available_volume o trade_date) price))
           (Portfolio_setitem (Blotter.portfolio (self w))
              (PStr (Asset.ticker
                       (OwnedAsset_asset
                          (OwnedAsset_make_trade owned_asset
                             (get_available_volume o trade_date) price))))
              (OwnedAsset_make_trade owned_asset
                 (get_available_volume o trade_date) price))).
Proof.
  intros E [held Hheld] T.
  unfold _update_existing_position, bind at 1. rewrite (deref_some E).
  set (oa := OwnedAsset_make_trade owned_asset
               (get_available_volume o trade_date) price) in *.
  destruct (Z.eqb_spec (OwnedAsset.shares_owned oa) 0) as [Z0 | NZ];
    cbn [negb].
  - unfold bind at 1, modify_portfolio, modify_self.
    unfold bind at 1, get_self. cbn [self set_self Blotter.portfolio
      Blotter.set_portfolio Portfolio.owned_assets Portfolio.set_cash].
    rewrite Hheld.
    destruct (T ("Close an existing "
                 ++ format_position (OwnedAsset.position oa)
                 ++ " position")) as [t Ht].
    unfold bind, lift, ret. rewrite Ht.
    eexists t, _. split; [reflexivity|].
    cbn. repeat split; try contradiction.
    apply lookup_delete_eq.
  - destruct (T ("Update an existing "
                 ++ format_position (OwnedAsset.position oa)
                 ++ " position")) as [t Ht].
    unfold bind, modify_portfolio, modify_self, lift, ret. rewrite Ht.
    eexists t, _. split; [reflexivity|].
    cbn. repeat split; contradiction.
Qed.
End Positions.

(** C8, witness: a SELL of 5 AAPL shares at 105 with nothing held and 1000
    in cash opens a short position of 5 shares under ["AAPL"], and the cash
    goes from 1000 to 1000 + 105 * 5 = 1525. *)
Lemma open_new_position_spec_witness :
  objects (Example.holding ∅ Example.sell5) !! 0%nat = Some Example.sell5 /\
  Portfolio.cash (Blotter.portfolio (self (Example.holding ∅ Example.sell5)))
    = 1000%Q /\
  exists owned_asset,
    OwnedAsset.position owned_asset = SHORT /\
    OwnedAsset.shares_owned owned_asset = 5%Z /\
    OwnedAsset.average_share_price owned_asset = 105%Q /\
    Portfolio.owned_assets
      (Blotter.portfolio
         (self (snd (_open_new_position (H := Example.env) 105 None 0
                       (Example.holding ∅ Example.sell5)))))
      !! "AAPL" = Some owned_asset /\
    Portfolio.cash
      (Blotter.portfolio
         (self (snd (_open_new_position (H := Example.env) 105 None 0
                       (Example.holding ∅ Example.sell5)))))
      = (1000 + 105 * inject_Z 5)%Q /\
    (Portfolio.cash
       (Blotter.portfolio
          (self (snd (_open_new_position (H := Example.env) 105 None 0
                        (Example.holding ∅ Example.sell5)))))
     == 1525)%Q.
Proof.
  split; [reflexivity|]. split; [reflexivity|].
  destruct (@open_new_position_spec Example.env
              (Example.holding ∅ Example.sell5) 105 None 0%nat Example.sell5
              eq_refl)
    as (oa & Hticker & Hsell & _ & Hshares & Hprice & Hportfolio & Hcash & _).
  assert (Hkeeps : forall p key a,
             Portfolio.cash (Spec.Portfolio_setitem p key a)
             = Portfolio.cash p)
    by (intros p key a; now destruct key).
  specialize (Hcash Hkeeps).
  cbn [total_position_cost Example.env Spec.collaborators] in Hcash.
  unfold Spec.total_position_cost in Hcash.
  cbn [get_available_volume Example.env Spec.collaborators] in Hshares.
  rewrite Hshares, Hprice in Hcash.
  exists oa. split; [now apply Hsell|]. split; [exact Hshares|].
  split; [exact Hprice|].
  split; [rewrite Hportfolio; apply lookup_insert_eq|].
  split; [exact Hcash | now rewrite Hcash].
Defined.

(** C7, witness: a BUY of 5 AAPL shares at 105 against a short position of
    5 shares closes the position and removes it from the holdings. *)
Lemma update_existing_position_spec_witness :
  objects (Example.holding {["AAPL" := Example.short5]} Example.buy5) !! 0%nat
    = Some Example.buy5 /\
  is_Some (({["AAPL" := Example.short5]} : gmap string OwnedAsset.t) !! "AAPL") /\
  exists t w',
    _update_existing_position (H := Example.env) 105 None Example.short5 0
      (Example.holding {["AAPL" := Example.short5]} Example.buy5)
      = (Returns t, w') /\
    Portfolio.owned_assets (Blotter.portfolio (self w')) !! "AAPL" = None.
Proof.
  split; [reflexivity|]. split; [eexists; reflexivity|].
  destruct (@update_existing_position_spec Example.env
              (Example.holding {["AAPL" := Example.short5]} Example.buy5)
              105 None Example.short5 0%nat Example.buy5 eq_refl)
    as (t & w' & Hrun & _ & _ & Hzero & _).
  - eexists. reflexivity.
  - intros note. eexists. reflexivity.
  - exists t, w'. split; [exact Hrun|]. now apply Hzero.
Defined.

(** Selling 5 more shares' worth against a long position of 5: the
    position helper is handed the order's available volume, the position
    grows to 10 shares and is stored back under its ticker. *)
Example update_existing_position_stores_back :
  exists t w',
    _update_existing_position (H := Example.env) 105 None Example.long5 0
      (Example.holding {["AAPL" := Example.long5]} Example.sell5)
      = (Returns t, w') /\
    (OwnedAsset.shares_owned <$>
       Portfolio.owned_assets (Blotter.portfolio (self w')) !! "AAPL")
      = Some 10%Z.
Proof.
  eexists _, _. split; [vm_compute; reflexivity|]. reflexivity.
Qed.

(** The weighted average of the specification: 10 shares at 100, then 10
    more at 110, give 20 shares at 105. *)
Example weighted_average_price :
  OwnedAsset.shares_owned
    (Spec.OwnedAsset_make_trade (OwnedAsset.mk (PStr "AAPL") 10 100 LONG) 10 110)
    = 20%Z /\
  (OwnedAsset.average_share_price
     (Spec.OwnedAsset_make_trade (OwnedAsset.mk (PStr "AAPL") 10 100 LONG) 10
        110) == 105)%Q.
Proof. split; reflexivity. Qed.

(** ** [__init__] *)

(** C9: an [asset_finder] that is neither [None] nor an [AssetFinder] makes
    the constructor raise [NotAFinderError]; with an acceptable finder, a
    [portfolio] that is neither [None] nor a [Portfolio] makes it raise
    [NotAPortfolioError]; [None] for either stands for a newly built
    default, and the new blotter has no orders and no trades. *)
Theorem init_checks_collaborators `{Collaborators} :
  (forall class_name portfolio model,
      __init__ (ArgOther class_name) portfolio model
        = Raises (NotAFinderError class_name)) /\
  (forall class_name model,
      __init__ ArgNone (ArgOther class_name) model
        = Raises (NotAPortfolioError class_name)) /\
  (forall finder class_name model,
      __init__ (ArgInstance finder) (ArgOther class_name) model
        = Raises (NotAPortfolioError class_name)) /\
  (forall model,
      __init__ ArgNone ArgNone model
        = Returns (Blotter.mk AssetFinder_new Portfolio_new [] [] None
                     (default PerOrderCommissionModel model))) /\
  (forall p model,
      __init__ ArgNone (ArgInstance p) model
        = Returns (Blotter.mk AssetFinder_new p [] [] None
                     (default PerOrderCommissionModel model))) /\
  (forall finder model,
      __init__ (ArgInstance finder) ArgNone model
        = Returns (Blotter.mk finder Portfolio_new [] [] None
                     (default PerOrderCommissionModel model))) /\
  (forall finder p model,
      __init__ (ArgInstance finder) (ArgInstance p) model
        = Returns (Blotter.mk finder p [] [] None
                     (default PerOrderCommissionModel model))).
Proof.
  repeat split; intros; try reflexivity; now destruct model.
Qed.

(** ** Item access *)

Lemma dict_del_missing d k : dict_get d k = None -> dict_del d k = None.
Proof.
  induction d as [|[k' v'] d IH]; simpl; [reflexivity|].
  destruct (py_eqb k' k); [discriminate|].
  intros G. now rewrite (IH G).
Qed.

(** C10: item assignment with an [Asset] key stores the value under the
    asset's ticker string, while item lookup and deletion look for the key
    as given. So, in a table with no [Asset] among its keys, after storing
    a value under an [Asset] the lookup and the deletion with that same
    [Asset] raise [KeyError], and the lookup with the ticker string returns
    the value. *)
Theorem setitem_normalizes_key_getitem_does_not :
  (forall a v w,
      __setitem__ (PAsset a) v w
        = (Returns tt,
           set_self
             (Blotter.set_orders
                (dict_set (Blotter.orders (self w)) (PStr (Asset.ticker a)) v)
                (self w)) w)) /\
  (forall key w,
      __getitem__ key w
        = (match dict_get (Blotter.orders (self w)) key with
           | Some v => Returns v
           | None => Raises KeyError
           end, w)) /\
  (forall key w,
      __delitem__ key w
        = match dict_del (Blotter.orders (self w)) key with
          | Some d => (Returns tt, set_self (Blotter.set_orders d (self w)) w)
          | None => (Raises KeyError, w)
          end) /\
  (forall a v w,
      dict_get (Blotter.orders (self w)) (PAsset a) = None ->
      __getitem__ (PAsset a) (snd (__setitem__ (PAsset a) v w))
        = (Raises KeyError, snd (__setitem__ (PAsset a) v w)) /\
      __delitem__ (PAsset a) (snd (__setitem__ (PAsset a) v w))
        = (Raises KeyError, snd (__setitem__ (PAsset a) v w)) /\
      __getitem__ (PStr (Asset.ticker a)) (snd (__setitem__ (PAsset a) v w))
        = (Returns v, snd (__setitem__ (PAsset a) v w))).
Proof.
  split; [reflexivity|].
  split.
  { intros key w. unfold __getitem__, bind, get_self.
    now destruct (dict_get _ key). }
  split.
  { intros key w. unfold __delitem__, bind, get_self.
    now destruct (dict_del _ key). }
  intros a v w G.
  assert (G' : dict_get
                 (dict_set (Blotter.orders (self w)) (PStr (Asset.ticker a)) v)
                 (PAsset a) = None)
    by (now rewrite dict_get_set_str_asset).
  unfold __getitem__, __delitem__, __setitem__, modify_self, bind, get_self.
  cbn [snd self set_self Blotter.orders Blotter.set_orders].
  rewrite G', (dict_del_missing G'), dict_get_set_str. auto.
Qed.

(** C10, witness: in a blotter with no orders, an order stored under the
    [Asset] object for AAPL is not found under that object, and is found
    under ["AAPL"]. *)
Lemma setitem_normalizes_key_getitem_does_not_witness :
  dict_get (Blotter.orders (self (Example.fresh 10))) (PAsset Example.aapl)
    = None /\
  fst (__getitem__ (PAsset Example.aapl)
         (snd (__setitem__ (PAsset Example.aapl) (POrder 0)
                 (Example.fresh 10)))) = Raises KeyError /\
  fst (__getitem__ (PStr "AAPL")
         (snd (__setitem__ (PAsset Example.aapl) (POrder 0)
                 (Example.fresh 10)))) = Returns (POrder 0).
Proof.
  split; [reflexivity|].
  destruct setitem_normalizes_key_getitem_does_not as (_ & _ & _ & Hmiss).
  destruct (Hmiss Example.aapl (POrder 0) (Example.fresh 10) eq_refl)
    as (Hget & _ & Hstr).
  split; [exact (f_equal fst Hget) | exact (f_equal fst Hstr)].
Defined.

(** ** Equality of keys *)

Lemma pyval_tuple_ind (P : pyval -> Prop) :
  P PNone ->
  (forall s, P (PStr s)) ->
  (forall items, Forall P items -> P (PTuple items)) ->
  (forall a, P (PAsset a)) ->
  (forall r, P (POrder r)) ->
  forall v, P v.
Proof.
  intros HN HS HT HA HO. fix IH 1.
  intros [| s | items | a | r]; [exact HN | apply HS | | apply HA | apply HO].
  apply HT. induction items as [|x xs IHxs]; constructor; [apply IH | exact IHxs].
Qed.

Lemma py_eqb_tuple_cons a xs b ys :
  py_eqb (PTuple (a :: xs)) (PTuple (b :: ys))
    = py_eqb a b && py_eqb (PTuple xs) (PTuple ys).
Proof. reflexivity. Qed.

Lemma py_eqb_refl x : py_eqb x x = true.
Proof.
  induction x as [| s | items IH | a | r] using pyval_tuple_ind; simpl; auto.
  - apply String.eqb_refl.
  - induction IH as [|x xs Hx _ IHxs]; [reflexivity|].
    rewrite Hx. exact IHxs.
  - apply Nat.eqb_refl.
  - apply Nat.eqb_refl.
Qed.

Lemma py_eqb_sym x : forall y, py_eqb x y = py_eqb y x.
Proof.
  induction x as [| s | items IH | a | r] using pyval_tuple_ind;
    intros [| s' | items' | a' | r']; try reflexivity.
  - simpl. apply String.eqb_sym.
  - revert items'. induction IH as [|x xs Hx _ IHxs]; intros [|y ys];
      try reflexivity.
    rewrite !py_eqb_tuple_cons, Hx, IHxs. reflexivity.
  - simpl. apply Nat.eqb_sym.
  - simpl. apply Nat.eqb_sym.
Qed.

(** Equal keys compare alike with every third key. *)
Lemma py_eqb_congr_l x : forall y z, py_eqb x y = true -> py_eqb x z = py_eqb y z.
Proof.
  induction x as [| s | items IH | a | r] using pyval_tuple_ind;
    intros [| s' | items' | a' | r'] z E; try discriminate E; try reflexivity.
  - simpl in E. apply String.eqb_eq in E. now subst.
  - destruct z as [| s'' | items'' | a'' | r'']; try reflexivity.
    revert items' items'' E.
    induction IH as [|x xs Hx _ IHxs]; intros [|y ys] zs E;
      try discriminate E; try reflexivity.
    rewrite py_eqb_tuple_cons in E. apply andb_true_iff in E as [E1 E2].
    destruct zs as [|z zs]; [reflexivity|].
    rewrite !py_eqb_tuple_cons, (Hx y z E1), (IHxs ys zs E2). reflexivity.
  - simpl in E. apply Nat.eqb_eq in E.
    destruct z; try reflexivity. simpl. now rewrite E.
  - simpl in E. apply Nat.eqb_eq in E. now subst.
Qed.

Lemma py_eqb_congr_r x y z : py_eqb x y = true -> py_eqb z x = py_eqb z y.
Proof.
  intros E. rewrite (py_eqb_sym z x), (py_eqb_sym z y).
  now apply py_eqb_congr_l.
Qed.

(** ** Dictionaries *)

Lemma dict_get_set_same d k v : dict_get (dict_set d k v) k = Some v.
Proof.
  induction d as [|[k' v'] d IH]; simpl.
  - now rewrite py_eqb_refl.
  - destruct (py_eqb k' k) eqn:E; simpl; rewrite E; auto.
Qed.

Lemma dict_get_set_other d k k' v :
  py_eqb k k' = false -> dict_get (dict_set d k v) k' = dict_get d k'.
Proof.
  intros N. induction d as [|[k0 v0] d IH]; simpl.
  - now rewrite N.
  - destruct (py_eqb k0 k) eqn:E; simpl.
    + now rewrite (py_eqb_congr_l k' E), N.
    + now rewrite IH.
Qed.

Lemma dict_keys_set d k v :
  dict_keys (dict_set d k v)
    = if dict_contains d k then dict_keys d else (dict_keys d ++ [k])%list.
Proof.
  unfold dict_contains.
  induction d as [|[k0 v0] d IH]; simpl; [reflexivity|].
  destruct (py_eqb k0 k) eqn:E; simpl; [reflexivity|].
  rewrite IH. now destruct (dict_get d k).
Qed.

Lemma dict_contains_set_other d k k' v :
  py_eqb k k' = false ->
  dict_contains (dict_set d k v) k' = dict_contains d k'.
Proof. intros N. unfold dict_contains. now rewrite dict_get_set_other. Qed.

Lemma unique_keys_set d k v : unique_keys d = true -> unique_keys (dict_set d k v) = true.
Proof.
  induction d as [|[k0 v0] d IH]; simpl; [reflexivity|].
  intros U. apply andb_true_iff in U as [U1 U2].
  destruct (py_eqb k0 k) eqn:E; simpl.
  - now rewrite U1, U2.
  - rewrite (IH U2), andb_true_r.
    rewrite dict_contains_set_other; [exact U1|].
    now rewrite py_eqb_sym.
Qed.

Lemma dict_del_contains d k :
  dict_del d k = None <-> dict_contains d k = false.
Proof.
  unfold dict_contains.
  induction d as [|[k0 v0] d IH]; simpl; [tauto|].
  destruct (py_eqb k0 k); [split; discriminate|].
  destruct (dict_del d k), (dict_get d k); destruct IH as [I1 I2];
    split; intros; try reflexivity; try discriminate;
    solve [discriminate (I1 eq_refl) | discriminate (I2 eq_refl)].
Qed.

Lemma dict_get_del_other d d' k k' :
  py_eqb k k' = false -> dict_del d k = Some d' -> dict_get d' k' = dict_get d k'.
Proof.
  intros N. revert d'. induction d as [|[k0 v0] d IH]; simpl; [discriminate|].
  intros d'. destruct (py_eqb k0 k) eqn:E.
  - intros [= <-]. now rewrite (py_eqb_congr_l k' E), N.
  - destruct (dict_del d k) as [d''|]; [|discriminate].
    intros [= <-]. simpl. now rewrite (IH d'' eq_refl).
Qed.

Lemma dict_get_del_same d d' k :
  unique_keys d = true -> dict_del d k = Some d' -> dict_get d' k = None.
Proof.
  revert d'. induction d as [|[k0 v0] d IH]; simpl; [discriminate|].
  intros d' U. apply andb_true_iff in U as [U1 U2].
  destruct (py_eqb k0 k) eqn:E.
  - intros [= <-]. unfold dict_contains in U1.
    destruct (dict_get d k0) eqn:G; [discriminate|].
    clear -G E. induction d as [|[k1 v1] d IH]; simpl in *; [reflexivity|].
    rewrite <- (py_eqb_congr_r k1 E).
    destruct (py_eqb k1 k0); [discriminate|]. now apply IH.
  - destruct (dict_del d k) as [d''|]; [|discriminate].
    intros [= <-]. simpl. rewrite E. now apply IH.
Qed.

Lemma unique_keys_del d d' k :
  unique_keys d = true -> dict_del d k = Some d' -> unique_keys d' = true.
Proof.
  revert d'. induction d as [|[k0 v0] d IH]; simpl; [discriminate|].
  intros d' U. apply andb_true_iff in U as [U1 U2].
  destruct (py_eqb k0 k) eqn:E.
  - now intros [= <-].
  - destruct (dict_del d k) as [d''|] eqn:D; [|discriminate].
    intros [= <-]. simpl. rewrite (IH d'' U2 eq_refl), andb_true_r.
    unfold dict_contains in *.
    rewrite (dict_get_del_other (d := d) (k := k) (k' := k0)); auto.
    now rewrite py_eqb_sym.
Qed.

Lemma dict_del_set_new d k v :
  dict_get d k = None -> dict_del (dict_set d k v) k = Some d.
Proof.
  induction d as [|[k0 v0] d IH]; simpl.
  - now rewrite py_eqb_refl.
  - destruct (py_eqb k0 k) eqn:E; [discriminate|].
    intros G. simpl. now rewrite E, (IH G).
Qed.

(** ** Item access, in general *)

Lemma setitem_run key v w :
  __setitem__ key v w
    = (Returns tt,
       set_self
         (Blotter.set_orders
            (dict_set (Blotter.orders (self w)) (stored_key key) v) (self w))
         w).
Proof. now destruct key. Qed.

Lemma getitem_run key w :
  __getitem__ key w
    = (match dict_get (Blotter.orders (self w)) key with
       | Some v => Returns v
       | None => Raises KeyError
       end, w).
Proof. unfold __getitem__, bind, get_self. now destruct (dict_get _ key). Qed.

Lemma delitem_run key w :
  __delitem__ key w
    = match dict_del (Blotter.orders (self w)) key with
      | Some d => (Returns tt, set_self (Blotter.set_orders d (self w)) w)
      | None => (Raises KeyError, w)
      end.
Proof. unfold __delitem__, bind, get_self. now destruct (dict_del _ key). Qed.

(** X1: what [self[key] = value] stores is what [self[...]] returns, under
    the ticker for an [Asset] key and under the key itself otherwise; the
    lookup changes nothing. *)
Theorem setitem_getitem_roundtrip key v w :
  fst (__setitem__ key v w) = Returns tt /\
  __getitem__ (stored_key key) (snd (__setitem__ key v w))
    = (Returns v, snd (__setitem__ key v w)).
Proof.
  rewrite setitem_run, getitem_run. cbn.
  now rewrite dict_get_set_same.
Qed.

(** X2: [self[key] = value] does not change what is found under any key
    different from the one it writes. *)
Theorem setitem_keeps_other_keys key k' v w :
  py_eqb (stored_key key) k' = false ->
  fst (__getitem__ k' (snd (__setitem__ key v w))) = fst (__getitem__ k' w).
Proof.
  intros N. rewrite setitem_run, !getitem_run. cbn.
  now rewrite dict_get_set_other.
Qed.

Lemma setitem_keeps_other_keys_witness :
  py_eqb (stored_key (PAsset Example.aapl)) (PStr "FB") = false /\
  fst (__getitem__ (PStr "FB")
         (snd (__setitem__ (PAsset Example.aapl) (POrder 0)
                 (Example.one_buy 10 100))))
    = fst (__getitem__ (PStr "FB") (Example.one_buy 10 100)).
Proof.
  split; [reflexivity|].
  apply (@setitem_keeps_other_keys (PAsset Example.aapl) (PStr "FB")
           (POrder 0) (Example.one_buy 10 100)).
  reflexivity.
Defined.

(** X3: assigning under a key the table has keeps the keys and their order;
    a new key goes last. *)
Theorem setitem_key_order key v w :
  dict_keys (Blotter.orders (self (snd (__setitem__ key v w))))
    = if dict_contains (Blotter.orders (self w)) (stored_key key)
      then dict_keys (Blotter.orders (self w))
      else (dict_keys (Blotter.orders (self w)) ++ [stored_key key])%list.
Proof. rewrite setitem_run. cbn. apply dict_keys_set. Qed.

(** X4: deleting a key the table does not have raises [KeyError] and leaves
    the world as it was. *)
Theorem delitem_missing_key key w :
  dict_contains (Blotter.orders (self w)) key = false ->
  __delitem__ key w = (Raises KeyError, w).
Proof.
  intros C. rewrite delitem_run.
  now rewrite (proj2 (dict_del_contains _ _) C).
Qed.

Lemma delitem_missing_key_witness :
  dict_contains (Blotter.orders (self (Example.one_buy 10 100))) (PStr "FB")
    = false /\
  __delitem__ (PStr "FB") (Example.one_buy 10 100)
    = (Raises KeyError, Example.one_buy 10 100).
Proof.
  split; [reflexivity|].
  apply (@delitem_missing_key (PStr "FB") (Example.one_buy 10 100)).
  reflexivity.
Defined.

(** X5: deleting a key the table has returns normally; afterwards that key
    is not found, every other key is found as before, and only the table
    has changed. *)
Theorem delitem_then_getitem key w :
  unique_keys (Blotter.orders (self w)) = true ->
  dict_contains (Blotter.orders (self w)) key = true ->
  exists w',
    __delitem__ key w = (Returns tt, w') /\
    __getitem__ key w' = (Raises KeyError, w') /\
    (forall k', py_eqb key k' = false ->
                fst (__getitem__ k' w') = fst (__getitem__ k' w)) /\
    unique_keys (Blotter.orders (self w')) = true /\
    Blotter.portfolio (self w') = Blotter.portfolio (self w) /\
    Blotter.trades (self w') = Blotter.trades (self w) /\
    objects w' = objects w.
Proof.
  intros U C. rewrite delitem_run.
  destruct (dict_del (Blotter.orders (self w)) key) as [d|] eqn:D.
  2:{ apply dict_del_contains in D. congruence. }
  eexists. split; [reflexivity|]. rewrite getitem_run. cbn.
  rewrite (dict_get_del_same U D). split; [reflexivity|].
  split.
  { intros k' N. rewrite (dict_get_del_other N D).
    now destruct (dict_get _ k'). }
  split; [exact (unique_keys_del U D)|]. auto.
Qed.

Lemma delitem_then_getitem_witness :
  unique_keys (Blotter.orders (self (Example.one_buy 10 100))) = true /\
  dict_contains (Blotter.orders (self (Example.one_buy 10 100))) (PStr "AAPL")
    = true /\
  exists w',
    __delitem__ (PStr "AAPL") (Example.one_buy 10 100) = (Returns tt, w') /\
    __getitem__ (PStr "AAPL") w' = (Raises KeyError, w').
Proof.
  split; [reflexivity|]. split; [reflexivity|].
  destruct (@delitem_then_getitem (PStr "AAPL") (Example.one_buy 10 100)
              eq_refl eq_refl) as (w' & Hdel & Hget & _).
  exists w'. split; [exact Hdel | exact Hget].
Defined.

(** X6: storing a value under a key the table does not have and deleting
    that key again gives back the world as it was. *)
Theorem setitem_delitem_roundtrip key v w :
  dict_contains (Blotter.orders (self w)) (stored_key key) = false ->
  __delitem__ (stored_key key) (snd (__setitem__ key v w)) = (Returns tt, w).
Proof.
  unfold dict_contains. intros C.
  destruct (dict_get (Blotter.orders (self w)) (stored_key key)) eqn:G;
    [discriminate|].
  rewrite setitem_run, delitem_run. cbn.
  rewrite (dict_del_set_new v G). f_equal.
  destruct w as [[] ? ?]. reflexivity.
Qed.

Lemma setitem_delitem_roundtrip_witness :
  dict_contains (Blotter.orders (self (Example.one_buy 10 100)))
    (stored_key (PAsset (Asset.mk 8 "FB"))) = false /\
  __delitem__ (PStr "FB")
    (snd (__setitem__ (PAsset (Asset.mk 8 "FB")) (POrder 0)
            (Example.one_buy 10 100)))
    = (Returns tt, Example.one_buy 10 100).
Proof.
  split; [reflexivity|].
  apply (@setitem_delitem_roundtrip (PAsset (Asset.mk 8 "FB")) (POrder 0)
           (Example.one_buy 10 100)).
  reflexivity.
Defined.

(** ** Placing orders, in general *)

Lemma tuple_values_set d k v :
  tuple_values d = true -> is_tuple v = true ->
  tuple_values (dict_set d k v) = true.
Proof.
  unfold tuple_values, dict_values. intros T V.
  induction d as [|[k0 v0] d IH]; simpl in *.
  - now rewrite V.
  - apply andb_true_iff in T as [T1 T2].
    destruct (py_eqb k0 k); simpl.
    + now rewrite V, T2.
    + now rewrite T1, (IH T2).
Qed.

Lemma tuple_values_get d k v :
  tuple_values d = true -> dict_get d k = Some v -> is_tuple v = true.
Proof.
  unfold tuple_values, dict_values.
  induction d as [|[k0 v0] d IH]; simpl; [discriminate|].
  intros T. apply andb_true_iff in T as [T1 T2].
  destruct (py_eqb k0 k); [now intros [= <-] | now apply IH].
Qed.

Lemma py_add_not_tuple v items :
  is_tuple v = false -> py_add v (PTuple items) = Raises TypeError.
Proof. now destruct v. Qed.

(** X7, witness: a second order for ["AAPL"], given as a string. *)
Lemma place_order_str_appends_witness :
  exists w',
    place_order (H := Example.env) (PStr "AAPL") SELL MARKET None None 5 None
      None (Example.one_buy 10 100) = (Returns tt, w') /\
    dict_get (Blotter.orders (self w')) (PStr "AAPL")
      = Some (PTuple [POrder 0; POrder 1]).
Proof.
  destruct (@place_order_str_appends Example.env (Example.one_buy 10 100)
              "AAPL" [POrder 0] SELL MARKET None None 5%Z None None
              (Order.mk (PStr "AAPL") SELL MARKET None None None 5 0 None 0
                 true)
              eq_refl eq_refl) as (w' & Hrun & _ & _ & Hget).
  exists w'. split; [exact Hrun | exact Hget].
Defined.

(** X8, witness: a first order for ["FB"]. *)
Lemma place_order_str_new_witness :
  exists w',
    place_order (H := Example.env) (PStr "FB") SELL MARKET None None 5 None
      None (Example.one_buy 10 100) = (Returns tt, w') /\
    dict_get (Blotter.orders (self w')) (PStr "FB") = Some (PTuple [POrder 1]).
Proof.
  destruct (@place_order_str_new Example.env (Example.one_buy 10 100)
              "FB" SELL MARKET None None 5%Z None None
              (Order.mk (PStr "FB") SELL MARKET None None None 5 0 None 0 true)
              eq_refl eq_refl) as (w' & Hrun & _ & Hget).
  exists w'. split; [exact Hrun | exact Hget].
Defined.

Section PlaceOrderInGeneral.
Context `{Collaborators}.

(** What [place_order] does, step by step. *)
Lemma place_order_run w ticker action order_type stop_price limit_price qty
    date_placed order_subtype :
  place_order ticker action order_type stop_price limit_price qty date_placed
    order_subtype w
  = match Order_new ticker action order_type order_subtype stop_price
            limit_price qty
            (match date_placed with
             | None => Blotter.current_dt (self w)
             | Some d => Some d
             end) with
    | Raises e => (Raises e, w)
    | Returns o =>
        match dict_get (Blotter.orders (self w)) ticker with
        | Some old =>
            match py_add old (PTuple [POrder (length (objects w))]) with
            | Returns v =>
                (Returns tt,
                 set_self
                   (Blotter.set_orders
                      (dict_set (Blotter.orders (self w)) (stored_key ticker) v)
                      (self w))
                   (set_objects (objects w ++ [o]) w))
            | Raises e => (Raises e, set_objects (objects w ++ [o]) w)
            end
        | None =>
            (Returns tt,
             set_self
               (Blotter.set_orders
                  (dict_set (Blotter.orders (self w)) (stored_key ticker)
                     (PTuple [POrder (length (objects w))]))
                  (self w))
               (set_objects (objects w ++ [o]) w))
        end
    end.
Proof.
  unfold place_order, bind at 1, get_self.
  unfold bind at 1, lift.
  destruct (Order_new _ _ _ _ _ _ _ _) as [o|e]; [|reflexivity].
  unfold bind at 1, alloc. unfold bind at 1, get_self.
  cbn [self set_objects]. unfold dict_contains.
  destruct (dict_get (Blotter.orders (self w)) ticker) as [old|] eqn:G.
  - unfold bind at 1. rewrite getitem_run. cbn [self set_objects]. rewrite G.
    unfold bind, lift.
    destruct (py_add old _) as [v|e]; [|reflexivity].
    now rewrite setitem_run.
  - now rewrite setitem_run.
Qed.

(** X9: when [Order(...)] raises, [place_order] raises the same exception
    and leaves the world as it was: no object, no entry. *)
Theorem place_order_invalid_order w ticker action order_type stop_price
    limit_price qty date_placed order_subtype e :
  Order_new ticker action order_type order_subtype stop_price limit_price qty
    (match date_placed with
     | None => Blotter.current_dt (self w)
     | Some d => Some d
     end) = Raises e ->
  place_order ticker action order_type stop_price limit_price qty date_placed
    order_subtype w = (Raises e, w).
Proof. intros N. now rewrite place_order_run, N. Qed.

(** X10: when the table holds under the ticker something that is not a
    tuple, such as an order stored by item assignment, [place_order] raises
    [TypeError]: the new order object exists, the table and the rest of the
    blotter are as they were. *)
Theorem place_order_not_a_tuple w ticker action order_type stop_price
    limit_price qty date_placed order_subtype o old :
  Order_new ticker action order_type order_subtype stop_price limit_price qty
    (match date_placed with
     | None => Blotter.current_dt (self w)
     | Some d => Some d
     end) = Returns o ->
  dict_get (Blotter.orders (self w)) ticker = Some old ->
  is_tuple old = false ->
  place_order ticker action order_type stop_price limit_price qty date_placed
    order_subtype w
  = (Raises TypeError, mkWorld (self w) (objects w ++ [o]) (warnings w)).
Proof.
  intros N G T. now rewrite place_order_run, N, G, (py_add_not_tuple _ T).
Qed.

(** X11: called with an [Asset] that is not itself a key of the table,
    [place_order] stores under the asset's ticker a one-element tuple
    holding the new order, whatever was stored there before; other keys
    keep their entries. *)
Theorem place_order_asset_overwrites w a action order_type stop_price
    limit_price qty date_placed order_subtype o :
  Order_new (PAsset a) action order_type order_subtype stop_price limit_price
    qty (match date_placed with
         | None => Blotter.current_dt (self w)
         | Some d => Some d
         end) = Returns o ->
  dict_contains (Blotter.orders (self w)) (PAsset a) = false ->
  exists w',
    place_order (PAsset a) action order_type stop_price limit_price qty
      date_placed order_subtype w = (Returns tt, w') /\
    objects w' = (objects w ++ [o])%list /\
    dict_get (Blotter.orders (self w')) (PStr (Asset.ticker a))
      = Some (PTuple [POrder (length (objects w))]) /\
    (forall k', py_eqb (PStr (Asset.ticker a)) k' = false ->
                dict_get (Blotter.orders (self w')) k'
                = dict_get (Blotter.orders (self w)) k').
Proof.
  unfold dict_contains. intros N C.
  destruct (dict_get (Blotter.orders (self w)) (PAsset a)) eqn:G;
    [discriminate|].
  rewrite place_order_run, N, G.
  eexists. split; [reflexivity|]. cbn.
  split; [reflexivity|]. split; [apply dict_get_set_same|].
  intros k' E. now apply dict_get_set_other.
Qed.

(** X12: whatever its arguments and its outcome, [place_order] leaves the
    portfolio, the trade history, the warnings and the existing order
    objects as they are, creates at most one object, and does not change
    what is found under any key other than the one it writes. *)
Theorem place_order_frame w ticker action order_type stop_price limit_price
    qty date_placed order_subtype :
  Blotter.portfolio
    (self (snd (place_order ticker action order_type stop_price limit_price
                  qty date_placed order_subtype w)))
    = Blotter.portfolio (self w) /\
  Blotter.trades
    (self (snd (place_order ticker action order_type stop_price limit_price
                  qty date_placed order_subtype w)))
    = Blotter.trades (self w) /\
  warnings (snd (place_order ticker action order_type stop_price limit_price
                   qty date_placed order_subtype w))
    = warnings w /\
  (exists created,
      objects (snd (place_order ticker action order_type stop_price
                      limit_price qty date_placed order_subtype w))
      = (objects w ++ created)%list /\ (length created <= 1)%nat) /\
  (forall k', py_eqb (stored_key ticker) k' = false ->
      dict_get
        (Blotter.orders
           (self (snd (place_order ticker action order_type stop_price
                         limit_price qty date_placed order_subtype w)))) k'
      = dict_get (Blotter.orders (self w)) k').
Proof.
  rewrite place_order_run.
  destruct (Order_new _ _ _ _ _ _ _ _) as [o|e]; cbn.
  2:{ repeat split; auto.
      exists []. split; [now rewrite app_nil_r | simpl; lia]. }
  destruct (dict_get (Blotter.orders (self w)) ticker) as [old|].
  - destruct (py_add old _) as [v|e]; cbn; repeat split; auto;
      try (exists [o]; split; [reflexivity | simpl; lia]).
    intros k' E. now apply dict_get_set_other.
  - repeat split; auto; try (exists [o]; split; [reflexivity | simpl; lia]).
    intros k' E. now apply dict_get_set_other.
Qed.

(** X13: on a table whose values are all tuples, as [place_order] leaves
    them, [place_order] ends as [Order(...)] does: it raises only what the
    constructor raises, and the table it leaves has tuples for values and
    still one entry per key. *)
Theorem place_order_on_tuple_tables w ticker action order_type stop_price
    limit_price qty date_placed order_subtype :
  tuple_values (Blotter.orders (self w)) = true ->
  fst (place_order ticker action order_type stop_price limit_price qty
         date_placed order_subtype w)
    = match Order_new ticker action order_type order_subtype stop_price
              limit_price qty
              (match date_placed with
               | None => Blotter.current_dt (self w)
               | Some d => Some d
               end) with
      | Returns _ => Returns tt
      | Raises e => Raises e
      end /\
  tuple_values
    (Blotter.orders
       (self (snd (place_order ticker action order_type stop_price limit_price
                     qty date_placed order_subtype w)))) = true /\
  (unique_keys (Blotter.orders (self w)) = true ->
   unique_keys
     (Blotter.orders
        (self (snd (place_order ticker action order_type stop_price
                      limit_price qty date_placed order_subtype w)))) = true).
Proof.
  intros T. rewrite place_order_run.
  destruct (Order_new _ _ _ _ _ _ _ _) as [o|e]; cbn; [|auto].
  destruct (dict_get (Blotter.orders (self w)) ticker) as [old|] eqn:G.
  - pose proof (tuple_values_get T G) as V.
    destruct old; try discriminate V. cbn.
    repeat split; [now apply tuple_values_set | apply unique_keys_set].
  - cbn. repeat split; [now apply tuple_values_set | apply unique_keys_set].
Qed.
End PlaceOrderInGeneral.

(** X9, witness: the default quantity, 0, is not a valid quantity. *)
Lemma place_order_invalid_order_witness :
  place_order (H := Example.env) (PStr "AAPL") BUY MARKET None None 0 None
    None (Example.one_buy 10 100)
  = (Raises InvalidOrderError, Example.one_buy 10 100).
Proof.
  apply (@place_order_invalid_order Example.env (Example.one_buy 10 100)
           (PStr "AAPL") BUY MARKET None None 0%Z None None InvalidOrderError).
  reflexivity.
Defined.

(** X10, witness: the table holds the order itself under ["AAPL"]. *)
Lemma place_order_not_a_tuple_witness :
  fst (place_order (H := Example.env) (PStr "AAPL") SELL MARKET None None 5
         None None (Example.bare_order 1000)) = Raises TypeError /\
  Blotter.orders
    (self (snd (place_order (H := Example.env) (PStr "AAPL") SELL MARKET None
                  None 5 None None (Example.bare_order 1000))))
    = [(PStr "AAPL", POrder 0)].
Proof.
  rewrite (@place_order_not_a_tuple Example.env (Example.bare_order 1000)
             (PStr "AAPL") SELL MARKET None None 5%Z None None
             (Order.mk (PStr "AAPL") SELL MARKET None None None 5 0 None 0 true)
             (POrder 0) eq_refl eq_refl eq_refl).
  split; reflexivity.
Defined.

(** X11, witness: the second order for AAPL, given as an [Asset]. *)
Lemma place_order_asset_overwrites_witness :
  exists w',
    place_order (H := Example.env) (PAsset Example.aapl) SELL MARKET None None
      5 None None (Example.one_buy 10 100) = (Returns tt, w') /\
    dict_get (Blotter.orders (self w')) (PStr "AAPL")
      = Some (PTuple [POrder 1]).
Proof.
  destruct (@place_order_asset_overwrites Example.env (Example.one_buy 10 100)
              Example.aapl SELL MARKET None None 5%Z None None
              (Order.mk (PAsset Example.aapl) SELL MARKET None None None 5 0
                 None 0 true)
              eq_refl eq_refl) as (w' & Hrun & _ & Hget & _).
  exists w'. split; [exact Hrun | exact Hget].
Defined.

(** X13, witness: a second order on the table one order leaves. *)
Lemma place_order_on_tuple_tables_witness :
  tuple_values (Blotter.orders (self (Example.one_buy 10 100))) = true /\
  fst (place_order (H := Example.env) (PStr "AAPL") SELL MARKET None None 5
         None None (Example.one_buy 10 100)) = Returns tt.
Proof.
  split; [reflexivity|].
  destruct (@place_order_on_tuple_tables Example.env (Example.one_buy 10 100)
              (PStr "AAPL") SELL MARKET None None 5%Z None None eq_refl)
    as (Hfst & _).
  exact Hfst.
Defined.

(** X12, witness: a second order for AAPL leaves what is found under ["FB"]
    (nothing) as it was. *)
Lemma place_order_frame_witness :
  py_eqb (stored_key (PAsset Example.aapl)) (PStr "FB") = false /\
  dict_get
    (Blotter.orders
       (self (snd (place_order (H := Example.env) (PAsset Example.aapl) SELL
                     MARKET None None 5 None None (Example.one_buy 10 100)))))
    (PStr "FB")
  = dict_get (Blotter.orders (self (Example.one_buy 10 100))) (PStr "FB").
Proof.
  split; [reflexivity|].
  destruct (@place_order_frame Example.env (Example.one_buy 10 100)
              (PAsset Example.aapl) SELL MARKET None None 5%Z None None)
    as (_ & _ & _ & _ & Hother).
  apply Hother. reflexivity.
Defined.

(** ** Trades, in general *)

Section TradesInGeneral.
Context `{Collaborators}.

(** X14: when the liquidity check passes and [Trade.from_order] returns a
    trade, [make_trade] returns normally; the order has the commission
    added to its commission and the trade's quantity added to its filled
    quantity, the cash has the trade's value added, the trade is the last
    of the history, and the holdings, the table and the warnings are as
    they were. *)
Theorem make_trade_accepted w order o price trade_date t :
  objects w !! order = Some o ->
  check_liquidity (Blotter.portfolio (self w))
    (calculate (Blotter.commission_model (self w)) o price) price
    (Order.qty o) = true ->
  Trade_from_order order
    (Order.set_commission
       (Order.commission o
        + calculate (Blotter.commission_model (self w)) o price) o)
    trade_date price
    (Some (calculate (Blotter.commission_model (self w)) o price))
    "Executing Order." = Returns t ->
  exists w' o',
    make_trade order price trade_date w = (Returns tt, w') /\
    objects w' = <[order := o']> (objects w) /\
    objects w' !! order = Some o' /\
    Order.filled o' = (Order.filled o + Trade.qty t)%Z /\
    Order.commission o'
      = (Order.commission o
         + calculate (Blotter.commission_model (self w)) o price)%Q /\
    Order.qty o' = Order.qty o /\
    Portfolio.cash (Blotter.portfolio (self w'))
      = (Portfolio.cash (Blotter.portfolio (self w)) + trade_value t)%Q /\
    Portfolio.owned_assets (Blotter.portfolio (self w'))
      = Portfolio.owned_assets (Blotter.portfolio (self w)) /\
    Blotter.trades (self w') = (Blotter.trades (self w) ++ [t])%list /\
    Blotter.orders (self w') = Blotter.orders (self w) /\
    warnings w' = warnings w.
Proof.
  intros E L T. rewrite (make_trade_run _ _ E), L, T.
  eexists _, _. split; [reflexivity|]. cbn.
  repeat split. eapply lookup_updated, E.
Qed.

(** X15: when the liquidity check passes and [Trade.from_order] raises,
    [make_trade] raises the same exception: the order has been charged the
    commission, and nothing else has changed. *)
Theorem make_trade_no_trade w order o price trade_date e :
  objects w !! order = Some o ->
  check_liquidity (Blotter.portfolio (self w))
    (calculate (Blotter.commission_model (self w)) o price) price
    (Order.qty o) = true ->
  Trade_from_order order
    (Order.set_commission
       (Order.commission o
        + calculate (Blotter.commission_model (self w)) o price) o)
    trade_date price
    (Some (calculate (Blotter.commission_model (self w)) o price))
    "Executing Order." = Raises e ->
  make_trade order price trade_date w
  = (Raises e,
     mkWorld (self w)
       (<[order := Order.set_commission
                     (Order.commission o
                      + calculate (Blotter.commission_model (self w)) o price)
                     o]> (objects w))
       (warnings w)).
Proof.
  intros E L T. now rewrite (make_trade_run _ _ E), L, T.
Qed.

Lemma settle_app cash ts ts' :
  settle cash (ts ++ ts') = settle (settle cash ts) ts'.
Proof. apply fold_left_app. Qed.

Lemma trades_only_refl w : trades_only w w.
Proof.
  exists []. rewrite app_nil_r. repeat split.
Qed.

Lemma trades_only_trans w1 w2 w3 :
  trades_only w1 w2 -> trades_only w2 w3 -> trades_only w1 w3.
Proof.
  intros (ts & T1 & C1 & H1 & F1 & M1 & D1 & L1)
         (ts' & T2 & C2 & H2 & F2 & M2 & D2 & L2).
  exists (ts ++ ts')%list.
  rewrite T2, T1, C2, C1, settle_app, app_assoc.
  repeat split; congruence.
Qed.

Lemma make_trade_trades_only w order price trade_date :
  trades_only w (snd (make_trade order price trade_date w)).
Proof.
  destruct (objects w !! order) as [o|] eqn:E.
  - rewrite (make_trade_run _ _ E).
    destruct (check_liquidity _ _ _ _).
    + destruct (Trade_from_order _ _ _ _ _ _) as [t|e].
      * exists [t]. cbn. rewrite length_insert. repeat split.
      * exists []. cbn. rewrite length_insert, app_nil_r. repeat split.
    + exists []. cbn. rewrite length_insert, app_nil_r. repeat split.
  - unfold make_trade, bind, get_self, deref. rewrite E.
    apply trades_only_refl.
Qed.

Lemma call_check_triggers_trades_only v dt price w :
  trades_only w (snd (call_check_triggers v dt price w)).
Proof.
  destruct v; try apply trades_only_refl.
  unfold call_check_triggers, bind at 1, deref.
  destruct (objects w !! ref) as [o|] eqn:E; [|apply trades_only_refl].
  destruct (check_triggers o dt price) as [fired o'].
  unfold bind, update, deref, bind. rewrite E.
  exists []. cbn. rewrite length_insert, app_nil_r. repeat split.
Qed.

(** A loop keeps what each of its rounds keeps. *)
Lemma for_each_keeps {A} (R : World -> World -> Prop) (body : A -> M unit) :
  (forall w, R w w) ->
  (forall w1 w2 w3, R w1 w2 -> R w2 w3 -> R w1 w3) ->
  (forall x w, R w (snd (body x w))) ->
  forall l w, R w (snd (for_each l body w)).
Proof.
  intros Rrefl Rtrans Rbody. unfold for_each.
  induction l as [|x l IH]; intros w; [apply Rrefl|].
  cbn [for_fold]. unfold bind at 1.
  pose proof (Rbody x w) as B.
  destruct (body x w) as [[[]|e] w1]; cbn [snd] in *; [|exact B].
  eapply Rtrans; [exact B | apply IH].
Qed.

(** A loop whose rounds leave the world alone leaves the world alone. *)
Lemma for_fold_pure {A S} (body : S -> A -> M S) :
  (forall acc x w, snd (body acc x w) = w) ->
  forall l acc w, snd (for_fold body l acc w) = w.
Proof.
  intros P. induction l as [|x l IH]; intros acc w; [reflexivity|].
  cbn [for_fold]. unfold bind.
  pose proof (P acc x w) as B.
  destruct (body acc x w) as [[acc'|e] w1]; cbn [snd] in *; subst w1;
    [apply IH | reflexivity].
Qed.

Lemma still_open_pure v w : snd (still_open v w) = w.
Proof.
  destruct v; try reflexivity.
  unfold still_open, bind, deref. now destruct (objects w !! ref).
Qed.

(** The purge changes nothing but the table, and the table only when it
    returns. *)
Lemma purge_closed_orders_effect w :
  exists res : outcome dict,
    purge_closed_orders w
    = match res with
      | Returns d => (Returns tt, set_self (Blotter.set_orders d (self w)) w)
      | Raises e => (Raises e, w)
      end.
Proof.
  unfold purge_closed_orders, bind at 1, get_self. unfold bind at 1.
  match goal with
  | |- context [for_fold ?body ?l ?acc w] =>
      assert (P : snd (for_fold body l acc w) = w);
      [ apply for_fold_pure | destruct (for_fold body l acc w) as [[d|e] w1] ]
  end.
  - intros acc x w0. unfold bind, lift.
    destruct (unpack2 x) as [[ticker asset_orders]|e]; [|reflexivity].
    destruct (py_iter asset_orders) as [elements|e]; [|reflexivity].
    apply for_fold_pure. intros acc' x' w'. unfold bind.
    pose proof (still_open_pure x' w') as Q.
    destruct (still_open x' w') as [[[]|] w'']; cbn [snd] in *; now subst.
  - cbn [snd] in P. subst w1. now exists (Returns d).
  - cbn [snd] in P. subst w1. now exists (Raises e).
Qed.

Lemma purge_closed_orders_trades_only w :
  trades_only w (snd (purge_closed_orders w)).
Proof.
  destruct (purge_closed_orders_effect w) as [[d|e] ->]; cbn [snd].
  - exists []. cbn. rewrite app_nil_r. repeat split.
  - apply trades_only_refl.
Qed.

(** X16: whatever the table holds and however it ends, a price tick only
    appends trades to the history, changes the cash by exactly the values of
    the trades it appended, in their order, and updates order objects in
    place; it never touches the holdings, the finder, the commission model
    or the clock, and never creates or drops an order object. *)
Theorem check_order_triggers_trades_only w dt price :
  trades_only w (snd (check_order_triggers dt price w)).
Proof.
  unfold check_order_triggers, bind at 1, get_self. unfold bind at 1.
  match goal with
  | |- context [for_each ?l ?body w] =>
      pose proof (@for_each_keeps _ trades_only body trades_only_refl
                    trades_only_trans) as K;
      specialize (fun HB => K HB l w);
      destruct (for_each l body w) as [[[]|e] w1]
  end; cbn [snd] in *.
  - eapply trades_only_trans; [|apply purge_closed_orders_trades_only].
    apply K. intros x w0. unfold bind at 1.
    pose proof (call_check_triggers_trades_only x dt price w0) as B.
    destruct (call_check_triggers x dt price w0) as [[[]|e] w2];
      cbn [snd] in *; try exact B.
    destruct x; try exact B.
    eapply trades_only_trans; [exact B | apply make_trade_trades_only].
  - apply K. intros x w0. unfold bind at 1.
    pose proof (call_check_triggers_trades_only x dt price w0) as B.
    destruct (call_check_triggers x dt price w0) as [[[]|e'] w2];
      cbn [snd] in *; try exact B.
    destruct x; try exact B.
    eapply trades_only_trans; [exact B | apply make_trade_trades_only].
Qed.

(** X17: on an empty table a price tick returns normally and changes
    nothing. *)
Theorem check_order_triggers_empty w dt price :
  Blotter.orders (self w) = [] ->
  check_order_triggers dt price w = (Returns tt, w).
Proof.
  intros E. unfold check_order_triggers, bind at 1, get_self. rewrite E.
  cbn [dict_values map for_each for_fold]. unfold bind at 1, ret.
  rewrite (purge_closed_orders_empty E). f_equal.
  destruct w as [[] ? ?]. cbn in E. now subst.
Qed.
End TradesInGeneral.

(** X14, witness: cash 1000, a BUY of 10 shares at 55 with a fee of 1. *)
Lemma make_trade_accepted_witness :
  exists w',
    make_trade (H := Example.env) 0 55 None (Example.one_buy 1000 10)
      = (Returns tt, w') /\
    Blotter.trades (self w')
      = [Trade.mk (PStr "AAPL") BUY 10 55 1 None 0 "Executing Order."].
Proof.
  destruct (@make_trade_accepted Example.env (Example.one_buy 1000 10) 0%nat
              (Order.mk (PStr "AAPL") BUY MARKET None None None 10 0 None 0
                 true)
              55 None
              (Trade.mk (PStr "AAPL") BUY 10 55 1 None 0 "Executing Order.")
              eq_refl eq_refl eq_refl)
    as (w' & o' & Hrun & _ & _ & _ & _ & _ & _ & _ & Htrades & _).
  exists w'. split; [exact Hrun | exact Htrades].
Defined.

(** X15, witness: an order already filled in full has no quantity left to
    trade. *)
Lemma make_trade_no_trade_witness :
  fst (make_trade (H := Example.env) 0 55 None
         (Example.holding ∅ Example.filled10)) = Raises InvalidQuantityError /\
  (Order.commission <$>
     objects (snd (make_trade (H := Example.env) 0 55 None
                     (Example.holding ∅ Example.filled10))) !! 0%nat)
    = Some (1 + 1)%Q.
Proof.
  rewrite (@make_trade_no_trade Example.env
             (Example.holding ∅ Example.filled10) 0%nat Example.filled10 55
             None InvalidQuantityError eq_refl eq_refl eq_refl).
  split; reflexivity.
Defined.

(** X17, witness: a blotter with no orders. *)
Lemma check_order_triggers_empty_witness :
  check_order_triggers (H := Example.env) None 55 (Example.fresh 10)
  = (Returns tt, Example.fresh 10).
Proof.
  apply (@check_order_triggers_empty Example.env (Example.fresh 10) None 55).
  reflexivity.
Defined.

(** X18, witness: the table holds an order under ["AAPL"]; the order is
    traded and stays in the table. *)
Lemma check_order_triggers_raises_witness :
  exists e w',
    check_order_triggers (H := Example.env) None 55 (Example.bare_order 1000)
      = (Raises e, w') /\
    Blotter.orders (self w') = [(PStr "AAPL", POrder 0)].
Proof.
  apply (@check_order_triggers_raises Example.env (Example.bare_order 1000)
           "AAPL" (POrder 0) [] None 55).
  reflexivity.
Defined.

(** X19: on a table that is not empty and whose values are all tuples, that
    is, on every table [place_order] has built, a price tick raises
    [AttributeError] and changes nothing: no trigger is checked. *)
Theorem check_order_triggers_on_tuple_tables `{Collaborators} w dt price :
  tuple_values (Blotter.orders (self w)) = true ->
  Blotter.orders (self w) <> [] ->
  check_order_triggers dt price w = (Raises AttributeError, w).
Proof.
  intros T N.
  destruct (Blotter.orders (self w)) as [|[k v] rest] eqn:E; [contradiction|].
  unfold tuple_values in T. cbn in T. apply andb_true_iff in T as [T _].
  destruct v; try discriminate T.
  exact (check_order_triggers_tuple dt price E).
Qed.

Lemma check_order_triggers_on_tuple_tables_witness :
  check_order_triggers (H := Example.env) None 5 (Example.one_buy 10 100)
  = (Raises AttributeError, Example.one_buy 10 100).
Proof.
  apply (@check_order_triggers_on_tuple_tables Example.env
           (Example.one_buy 10 100) None 5);
    [reflexivity | discriminate].
Defined.

(** X20: as soon as the first key of the table is a string, the purge
    raises and rebuilds nothing: [ValueError] unless the key is two
    characters long, [AttributeError] if it is. *)
Theorem purge_closed_orders_string_key w s v rest :
  Blotter.orders (self w) = (PStr s, v) :: rest ->
  purge_closed_orders w
  = (Raises (if Nat.eqb (String.length s) 2 then AttributeError
             else ValueError), w).
Proof.
  intros E. unfold purge_closed_orders, bind at 1, get_self. rewrite E.
  cbn [dict_keys map fst for_fold].
  unfold bind at 1. unfold bind at 1. unfold bind at 1, lift.
  destruct s as [|c1 [|c2 [|c3 s]]]; reflexivity.
Qed.

Lemma purge_closed_orders_string_key_witness :
  purge_closed_orders (Example.one_buy 10 100)
  = (Raises ValueError, Example.one_buy 10 100).
Proof.
  apply (@purge_closed_orders_string_key (Example.one_buy 10 100) "AAPL"
           (PTuple [POrder 0]) []).
  reflexivity.
Defined.

(** X21: when the fill brings the shares to zero and the portfolio holds
    nothing under the position's ticker, [_update_existing_position] raises
    [KeyError] after it has added [total_position_value] to the cash:
    the cash keeps the change, and nothing else has changed. *)
Theorem update_existing_position_missing_key `{Collaborators} w price
    trade_date owned_asset order o :
  objects w !! order = Some o ->
  OwnedAsset.shares_owned
    (OwnedAsset_make_trade owned_asset (get_available_volume o trade_date)
       price) = 0%Z ->
  Portfolio.owned_assets (Blotter.portfolio (self w))
    !! Asset.ticker
         (OwnedAsset_asset
            (OwnedAsset_make_trade owned_asset
               (get_available_volume o trade_date) price)) = None ->
  _update_existing_position price trade_date owned_asset order w
  = (Raises KeyError,
     mkWorld
       (Blotter.mk (Blotter.asset_finder (self w))
          (Portfolio.mk
             (Portfolio.cash (Blotter.portfolio (self w))
              + total_position_value
                  (OwnedAsset_make_trade owned_asset
                     (get_available_volume o trade_date) price))
             (Portfolio.owned_assets (Blotter.portfolio (self w))))
          (Blotter.orders (self w)) (Blotter.trades (self w))
          (Blotter.current_dt (self w)) (Blotter.commission_model (self w)))
       (objects w) (warnings w)) /\
  Portfolio.cash
    (Blotter.portfolio
       (self (snd (_update_existing_position price trade_date owned_asset
                     order w))))
  = (Portfolio.cash (Blotter.portfolio (self w))
     + total_position_value
         (OwnedAsset_make_trade owned_asset
            (get_available_volume o trade_date) price))%Q.
Proof.
  intros E Z0 G.
  assert (R : _update_existing_position price trade_date owned_asset order w
              = (Raises KeyError,
                 mkWorld
                   (Blotter.mk (Blotter.asset_finder (self w))
                      (Portfolio.mk
                         (Portfolio.cash (Blotter.portfolio (self w))
                          + total_position_value
                              (OwnedAsset_make_trade owned_asset
                                 (get_available_volume o trade_date) price))
                         (Portfolio.owned_assets (Blotter.portfolio (self w))))
                      (Blotter.orders (self w)) (Blotter.trades (self w))
                      (Blotter.current_dt (self w))
                      (Blotter.commission_model (self w)))
                   (objects w) (warnings w))).
  { unfold _update_existing_position, bind at 1. rewrite (deref_some E).
    rewrite Z0. cbn [Z.eqb negb].
    unfold bind at 1, modify_portfolio, modify_self.
    unfold bind at 1, get_self.
    cbn [self set_self Blotter.portfolio Blotter.set_portfolio
         Portfolio.owned_assets Portfolio.set_cash].
    now rewrite G. }
  rewrite R. split; reflexivity.
Qed.

(** X21, witness: a BUY of 5 shares against a short position of 5 that the
    portfolio does not hold, with positions reporting a value of 525: the
    call raises [KeyError] and the cash has gone from 1000 to 1525. *)
Lemma update_existing_position_missing_key_witness :
  Portfolio.cash (Blotter.portfolio (self (Example.holding ∅ Example.buy5)))
    = 1000%Q /\
  fst (_update_existing_position (H := Example.env_valued 525) 105 None
         Example.short5 0 (Example.holding ∅ Example.buy5))
    = Raises KeyError /\
  Portfolio.cash
    (Blotter.portfolio
       (self (snd (_update_existing_position (H := Example.env_valued 525) 105
                     None Example.short5 0 (Example.holding ∅ Example.buy5)))))
    = (1000 + 525)%Q /\
  ~ (Portfolio.cash
       (Blotter.portfolio
          (self (snd (_update_existing_position (H := Example.env_valued 525)
                        105 None Example.short5 0
                        (Example.holding ∅ Example.buy5)))))
     == 1000)%Q.
Proof.
  split; [reflexivity|].
  destruct (@update_existing_position_missing_key (Example.env_valued 525)
              (Example.holding ∅ Example.buy5) 105 None Example.short5 0%nat
              Example.buy5 eq_refl eq_refl (lookup_empty _))
    as [Hrun Hcash].
  split; [now rewrite Hrun|].
  split; [exact Hcash|].
  rewrite Hcash. vm_compute. discriminate.
Defined.
